(** * NMS: discovery, topology inference and counter-to-rate engine

    A shallow embedding of the Python sources

    - [simple_snmp_monitor.py]  (class [SimpleSnmpMonitor]),
    - [snmp_monitor.py]         (class [SNMPMonitor], method [calculate_rates]),
    - [nms_discovery.py]        (class [DeviceDiscovery]),

    together with the properties the design document states about them.

    Conventions of the embedding.

    - A Python [str] is a [string] (a sequence of bytes); [str.lower],
      [str.strip], [int(str)] and the character classes of [re] are modelled
      on ASCII.
    - A Python [dict] is an insertion-ordered association list ([Py.dict]):
      the sources observe the iteration order ([enumerate] over
      [dict.values()], first match in registry order).
    - Python [int] is [Z]; the results of true division ([/]) are exact
      rationals ([Q]), with [ZeroDivisionError] made explicit.
    - A call either returns or raises: [Py.outcome].
    - The outside world (the [snmpget]/[snmpwalk]/[ping] subprocesses, the
      [ipaddress] parser, the clock, the completion order of a thread pool)
      is an explicit environment record. *)

From Stdlib Require Import String Ascii List ZArith QArith Bool Arith Lia Permutation.
From Stdlib Require Import DecimalString Floats Qround.
Import ListNotations.
Open Scope list_scope.
Open Scope string_scope.

(** ** Python built-ins used by the sources *)

Module Py.

(** [sub in s] for two strings. *)
Fixpoint contains (sub s : string) : bool :=
  String.prefix sub s ||
  match s with
  | EmptyString => false
  | String _ rest => contains sub rest
  end.

(** [c in s] for a single character. *)
Fixpoint has_char (c : ascii) (s : string) : bool :=
  match s with
  | EmptyString => false
  | String c' rest => Ascii.eqb c c' || has_char c rest
  end.

Definition lower_ascii (c : ascii) : ascii :=
  let n := nat_of_ascii c in
  if (65 <=? n)%nat && (n <=? 90)%nat then ascii_of_nat (n + 32) else c.

(** [s.lower()] *)
Fixpoint lower (s : string) : string :=
  match s with
  | EmptyString => EmptyString
  | String c rest => String (lower_ascii c) (lower rest)
  end.

(** [bool(s)] for an optional string: [None] and [''] are falsy. *)
Definition truthy (s : option string) : bool :=
  match s with
  | Some (String _ _) => true
  | _ => false
  end.

(** [x in xs] for a list of strings. *)
Definition mem (x : string) (xs : list string) : bool :=
  existsb (String.eqb x) xs.

(** [x or y] on optional strings. *)
Definition or_else (x : option string) (y : string) : string :=
  match x with
  | Some (String _ _ as s) => s
  | _ => y
  end.

(** *** Characters and trimming *)

Definition newline : ascii := ascii_of_nat 10.
Definition quote : ascii := ascii_of_nat 34.

(** [c.isspace()] on ASCII: TAB, LF, VT, FF, CR, FS, GS, RS, US, space. *)
Definition is_space (c : ascii) : bool :=
  let n := nat_of_ascii c in
  ((9 <=? n)%nat && (n <=? 13)%nat) || ((28 <=? n)%nat && (n <=? 32)%nat).

Definition is_digit (c : ascii) : bool :=
  let n := nat_of_ascii c in (48 <=? n)%nat && (n <=? 57)%nat.

Fixpoint lstrip_by (p : ascii -> bool) (s : string) : string :=
  match s with
  | EmptyString => EmptyString
  | String c rest => if p c then lstrip_by p rest else s
  end.

Fixpoint rstrip_by (p : ascii -> bool) (s : string) : string :=
  match s with
  | EmptyString => EmptyString
  | String c rest =>
    match rstrip_by p rest with
    | EmptyString => if p c then EmptyString else String c EmptyString
    | kept => String c kept
    end
  end.

(** [s.strip()] *)
Definition strip (s : string) : string := rstrip_by is_space (lstrip_by is_space s).

(** [s.strip(c)] for a single character [c]. *)
Definition strip_char (c : ascii) (s : string) : string :=
  rstrip_by (Ascii.eqb c) (lstrip_by (Ascii.eqb c) s).

(** [s.split(sep)] for a single character [sep]; never empty. *)
Fixpoint split (sep : ascii) (s : string) : list string :=
  match s with
  | EmptyString => [EmptyString]
  | String c rest =>
    if Ascii.eqb c sep then EmptyString :: split sep rest
    else match split sep rest with
         | first :: others => String c first :: others
         | [] => [String c EmptyString]
         end
  end.

(** *** [int(s)] and [str(n)] *)

Definition digit_value (c : ascii) : Z := Z.of_nat (nat_of_ascii c - 48).

(** Decimal digits, single underscores allowed between two digits. *)
Fixpoint int_digits (acc : Z) (after_digit : bool) (s : string) : option Z :=
  match s with
  | EmptyString => if after_digit then Some acc else None
  | String c rest =>
    if is_digit c then int_digits (10 * acc + digit_value c) true rest
    else if Ascii.eqb c "_" && after_digit then int_digits acc false rest
    else None
  end.

(** [int(s)]: [None] stands for [ValueError]. *)
Definition int (s : string) : option Z :=
  match strip s with
  | String "+" digits => int_digits 0 false digits
  | String "-" digits => option_map Z.opp (int_digits 0 false digits)
  | digits => int_digits 0 false digits
  end.

Definition str_of_Z (n : Z) : string := NilZero.string_of_int (Z.to_int n).
Definition str_of_nat (n : nat) : string := str_of_Z (Z.of_nat n).

(** *** Values typed at parse time: an [int] or a [str] *)

Inductive value :=
| VInt (n : Z)
| VStr (s : string).

(** [str(v)] *)
Definition str (v : value) : string :=
  match v with
  | VInt n => str_of_Z n
  | VStr s => s
  end.

(** *** Insertion-ordered dictionaries with string keys *)

Definition dict (V : Type) : Type := list (string * V).

Section Dict.
Context {V : Type}.

(** [d.get(k)] *)
Fixpoint get (d : dict V) (k : string) : option V :=
  match d with
  | [] => None
  | (k', v) :: rest => if String.eqb k k' then Some v else get rest k
  end.

(** [k in d] *)
Definition has_key (d : dict V) (k : string) : bool :=
  match get d k with
  | Some _ => true
  | None => false
  end.

(** [d.get(k, default)] *)
Definition get_default (d : dict V) (k : string) (default : V) : V :=
  match get d k with
  | Some v => v
  | None => default
  end.

(** [d[k] = v]: an existing key keeps its position. *)
Fixpoint set (d : dict V) (k : string) (v : V) : dict V :=
  match d with
  | [] => [(k, v)]
  | (k', v') :: rest =>
    if String.eqb k k' then (k', v) :: rest else (k', v') :: set rest k v
  end.

Definition keys (d : dict V) : list string := map fst d.
Definition values (d : dict V) : list V := map snd d.

(** [d.update(other)] *)
Definition update (d other : dict V) : dict V :=
  fold_left (fun acc kv => set acc (fst kv) (snd kv)) other d.

End Dict.

(** Every character of [s] is a decimal digit. *)
Fixpoint all_digits (s : string) : bool :=
  match s with
  | EmptyString => true
  | String c rest => is_digit c && all_digits rest
  end.

(** [s.isdigit()] *)
Definition isdigit (s : string) : bool :=
  match s with
  | EmptyString => false
  | String _ _ => all_digits s
  end.

(** [s[1:]] *)
Definition from_second (s : string) : string :=
  match s with
  | EmptyString => EmptyString
  | String _ rest => rest
  end.

(** The body of a loop that stores [f k] under [k] for the keys where [f]
    answers. *)
Definition collect {V} (f : string -> option V) (acc : dict V) (k : string) : dict V :=
  match f k with
  | Some v => set acc k v
  | None => acc
  end.

(** A call returns a value or raises. *)
Inductive exn := ZeroDivisionError | TypeError | ValueError.

Inductive outcome (A : Type) :=
| Return (a : A)
| Raise (e : exn).
Arguments Return {A} a.
Arguments Raise {A} e.

Definition bind {A B} (m : outcome A) (k : A -> outcome B) : outcome B :=
  match m with
  | Return a => k a
  | Raise e => Raise e
  end.

(** A [for] loop whose body may raise, threading an accumulator. *)
Fixpoint for_each {A B} (body : B -> A -> outcome B) (items : list A) (acc : B)
  : outcome B :=
  match items with
  | [] => Return acc
  | item :: rest =>
    match body acc item with
    | Return acc' => for_each body rest acc'
    | Raise e => Raise e
    end
  end.

(** [enumerate(items)] *)
Definition enumerate {A} (items : list A) : list (nat * A) :=
  combine (seq 0 (List.length items)) items.

End Py.

Notation "x <- m ;; k" := (Py.bind m (fun x => k))
  (at level 61, m at next level, right associativity).

(** ** The outside world *)

Module Env.

(** What [subprocess.run(..., timeout=t)] can do. *)
Inductive process_result :=
| Completed (returncode : Z) (stdout stderr : string)
| TimeoutExpired
| OtherError.

Record world := {
  (** the result of running a shell command *)
  shell : string -> process_result;
  (** the result of running [ping -c 1 -W 1 ip] *)
  ping : string -> process_result;
  (** [IPv4Network(range, strict=False).hosts()], [None] for [ValueError] *)
  network_hosts : string -> option (list string);
  (** [datetime.now().isoformat()] *)
  now : string;
  (** the order in which the futures of a pool complete *)
  as_completed : list string -> list string;
  as_completed_perm : forall l, Permutation l (as_completed l)
}.

(** A world for examples: the commands listed in [replies] succeed and print
    the given text, every other command and every ping times out, and the
    address ranges that parse are those of [ranges]. *)
Definition scripted_world (replies : Py.dict string) (ranges : Py.dict (list string))
  : world :=
  {| shell := fun cmd =>
                match Py.get replies cmd with
                | Some text => Completed 0 text EmptyString
                | None => TimeoutExpired
                end;
     ping := fun _ => TimeoutExpired;
     network_hosts := fun network_range => Py.get ranges network_range;
     now := "2024-01-01T00:00:00";
     as_completed := fun futures => futures;
     as_completed_perm := fun futures => Permutation_refl futures |}.

End Env.

(** ** simple_snmp_monitor.py *)

Module SimpleSnmp.
Import Py Env.

Record monitor := { host : string; community : string }.

Definition run_snmp_command (w : world) (cmd : string) : option string :=
  match shell w cmd with
  | Completed returncode stdout _ =>
    if (returncode =? 0)%Z then Some (strip stdout) else None
  | TimeoutExpired => None
  | OtherError => None
  end.

(** *** The two regular expressions *)

Definition value_types : list string :=
  ["STRING"; "INTEGER"; "Counter32"; "Counter64"; "Gauge32"; "Timeticks"].

(** [s] without its prefix [p], when [p] is a prefix of [s]. *)
Fixpoint drop_prefix (p s : string) : option string :=
  match p, s with
  | EmptyString, _ => Some s
  | String a p', String b s' => if Ascii.eqb a b then drop_prefix p' s' else None
  | String _ _, EmptyString => None
  end.

(** [(.+)] closing a pattern: the characters up to the next newline, at
    least one. *)
Fixpoint until_newline (s : string) : string :=
  match s with
  | EmptyString => EmptyString
  | String c rest =>
    if Ascii.eqb c newline then EmptyString else String c (until_newline rest)
  end.

(** [(STRING|INTEGER|...): (.+)] matched at the start of [s]; the result is
    group [(.+)]. *)
Fixpoint match_typed_value (types : list string) (s : string) : option string :=
  match types with
  | [] => None
  | type :: others =>
    match drop_prefix (type ++ ": ") s with
    | Some rest =>
      match until_newline rest with
      | EmptyString => match_typed_value others s
      | group => Some group
      end
    | None => match_typed_value others s
    end
  end.

(** [= (STRING|...): (.+)] matched at the start of [s]. *)
Definition match_get_at (s : string) : option string :=
  match drop_prefix "= " s with
  | Some rest => match_typed_value value_types rest
  | None => None
  end.

(** [re.search(r'= (STRING|...): (.+)', s)]: group 2 of the leftmost match. *)
Fixpoint search_get (s : string) : option string :=
  match match_get_at s with
  | Some group => Some group
  | None =>
    match s with
    | EmptyString => None
    | String _ rest => search_get rest
    end
  end.

(** The longest prefix of digits, and the rest. *)
Fixpoint span_digits (s : string) : string * string :=
  match s with
  | EmptyString => (EmptyString, EmptyString)
  | String c rest =>
    if is_digit c then let (ds, r) := span_digits rest in (String c ds, r)
    else (EmptyString, s)
  end.

(** [\.(\d+) = (?:STRING|...): (.+)] matched at the start of [s]: groups 1
    and 2. *)
Definition match_walk_at (s : string) : option (string * string) :=
  match s with
  | String "." rest =>
    match span_digits rest with
    | (EmptyString, _) => None
    | (index, rest') =>
      match drop_prefix " = " rest' with
      | Some typed =>
        match match_typed_value value_types typed with
        | Some group => Some (index, group)
        | None => None
        end
      | None => None
      end
    end
  | _ => None
  end.

(** [re.search(r'\.(\d+) = (?:STRING|...): (.+)', line)] *)
Fixpoint search_walk (s : string) : option (string * string) :=
  match match_walk_at s with
  | Some groups => Some groups
  | None =>
    match s with
    | EmptyString => None
    | String _ rest => search_walk rest
    end
  end.

(** *** Queries *)

Definition get_command (self : monitor) (oid : string) : string :=
  "snmpget -v2c -c " ++ community self ++ " " ++ host self ++ " " ++ oid.

Definition walk_command (self : monitor) (oid : string) : string :=
  "snmpwalk -v2c -c " ++ community self ++ " " ++ host self ++ " " ++ oid.

Definition snmp_get (w : world) (self : monitor) (oid : string) : option string :=
  let cmd := get_command self oid in
  let output := run_snmp_command w cmd in
  if truthy output then
    match output with
    | Some text =>
      match search_get text with
      | Some group => Some (strip_char quote (strip group))
      | None => None
      end
    | None => None
    end
  else None.

(** What one line of a walk contributes: an index and its typed value. *)
Definition parse_walk_line (line : string) : option (string * value) :=
  if truthy (Some (strip line)) then
    match search_walk line with
    | Some (index, group) =>
      let value := strip_char quote (strip group) in
      let value := match int value with
                   | Some n => VInt n
                   | None => VStr value
                   end in
      Some (index, value)
    | None => None
    end
  else None.

(** The body of the loop over the lines of a walk. *)
Definition walk_line (results : dict value) (line : string) : dict value :=
  match parse_walk_line line with
  | Some (index, value) => set results index value
  | None => results
  end.

Definition snmp_walk (w : world) (self : monitor) (oid : string) : dict value :=
  let cmd := walk_command self oid in
  let output := run_snmp_command w cmd in
  let results : dict value := [] in
  if truthy output then
    match output with
    | Some text => fold_left walk_line (split newline text) results
    | None => results
    end
  else results.

(** *** Interfaces *)

(** [status_map.get(n, 'unknown')] *)
Definition status_map_get (n : Z) : string :=
  if (n =? 1)%Z then "up"
  else if (n =? 2)%Z then "down"
  else if (n =? 3)%Z then "testing"
  else "unknown".

(** [status.split('(')[1].split(')')[0]]; [None] stands for [IndexError]. *)
Definition numeric_part (text : string) : option string :=
  match split "(" text with
  | _ :: second :: _ =>
    match split ")" second with
    | first :: _ => Some first
    | [] => None
    end
  | _ => None
  end.

Definition status_texts : list string := ["up"; "down"; "testing"; "unknown"].

Definition get_status_text (status : value) : string :=
  match status with
  | VStr text =>
    if has_char "(" text then
      match numeric_part text with
      | Some part =>
        match int part with
        | Some n => status_map_get n
        | None => lower text
        end
      | None => lower text
      end
    else
      let status_lower := lower text in
      if mem status_lower ["up"; "down"; "testing"] then status_lower
      else
        match int text with
        | Some n => status_map_get n
        | None => "unknown"
        end
  | VInt n => status_map_get n
  end.

Record interface := {
  index : string;
  name : string;
  speed : value;
  admin_status : value;
  oper_status : value;
  admin_status_text : string;
  oper_status_text : string
}.

Definition oids (key : string) : string :=
  if String.eqb key "system_name" then "1.3.6.1.2.1.1.5.0"
  else if String.eqb key "system_uptime" then "1.3.6.1.2.1.1.3.0"
  else if String.eqb key "system_description" then "1.3.6.1.2.1.1.1.0"
  else if String.eqb key "interfaces_count" then "1.3.6.1.2.1.2.1.0"
  else if String.eqb key "interface_desc" then "1.3.6.1.2.1.2.2.1.2"
  else if String.eqb key "interface_speed" then "1.3.6.1.2.1.2.2.1.5"
  else if String.eqb key "interface_admin_status" then "1.3.6.1.2.1.2.2.1.7"
  else if String.eqb key "interface_oper_status" then "1.3.6.1.2.1.2.2.1.8"
  else if String.eqb key "interface_in_octets" then "1.3.6.1.2.1.2.2.1.10"
  else if String.eqb key "interface_out_octets" then "1.3.6.1.2.1.2.2.1.16"
  else if String.eqb key "interface_in_packets" then "1.3.6.1.2.1.2.2.1.11"
  else if String.eqb key "interface_out_packets" then "1.3.6.1.2.1.2.2.1.17"
  else EmptyString.

Definition get_interfaces (w : world) (self : monitor) : dict interface :=
  let descriptions := snmp_walk w self (oids "interface_desc") in
  let speeds := snmp_walk w self (oids "interface_speed") in
  let admin := snmp_walk w self (oids "interface_admin_status") in
  let oper := snmp_walk w self (oids "interface_oper_status") in
  fold_left
    (fun interfaces entry =>
       let index := fst entry in
       set interfaces index
           {| index := index;
              name := str (snd entry);
              speed := get_default speeds index (VInt 0);
              admin_status := get_default admin index (VInt 0);
              oper_status := get_default oper index (VInt 0);
              admin_status_text := get_status_text (get_default admin index (VInt 0));
              oper_status_text := get_status_text (get_default oper index (VInt 0)) |})
    descriptions [].

Record interface_stats := {
  in_octets : value;
  out_octets : value;
  in_packets : value;
  out_packets : value
}.

Definition get_interface_stats (w : world) (self : monitor) : dict interface_stats :=
  let in_octets := snmp_walk w self (oids "interface_in_octets") in
  let out_octets := snmp_walk w self (oids "interface_out_octets") in
  let in_packets := snmp_walk w self (oids "interface_in_packets") in
  let out_packets := snmp_walk w self (oids "interface_out_packets") in
  fold_left
    (fun stats entry =>
       let index := fst entry in
       set stats index
           {| in_octets := get_default in_octets index (VInt 0);
              out_octets := get_default out_octets index (VInt 0);
              in_packets := get_default in_packets index (VInt 0);
              out_packets := get_default out_packets index (VInt 0) |})
    in_octets [].

(** *** Uptime *)

(** Floor division, remainder and [int(...)] on a float, taken as exact
    rationals. *)
Definition floordiv (x m : Q) : Q := inject_Z (Qfloor (x / m)).
Definition modulo (x m : Q) : Q := (x - m * inject_Z (Qfloor (x / m)))%Q.
Definition int_of_float (x : Q) : Z := if Qle_bool 0 x then Qfloor x else Qceiling x.

(** The four numbers [format_uptime] prints: days, hours, minutes, seconds. *)
Definition uptime_parts (seconds : Q) : Z * Z * Z * Z :=
  let days := int_of_float (floordiv seconds 86400) in
  let hours := int_of_float (floordiv (modulo seconds 86400) 3600) in
  let minutes := int_of_float (floordiv (modulo seconds 3600) 60) in
  let secs := int_of_float (modulo seconds 60) in
  (days, hours, minutes, secs).

Definition format_uptime (seconds : Q) : string :=
  let '(days, hours, minutes, secs) := uptime_parts seconds in
  str_of_Z days ++ "d " ++ str_of_Z hours ++ "h " ++ str_of_Z minutes ++ "m "
  ++ str_of_Z secs ++ "s".

(** [\((\d+)\)] matched at the start of [s]: group 1. *)
Definition match_ticks_at (s : string) : option string :=
  match s with
  | String "(" rest =>
    match span_digits rest with
    | (EmptyString, _) => None
    | (ticks, String ")" _) => Some ticks
    | (_, _) => None
    end
  | _ => None
  end.

(** [re.search(r'\((\d+)\)', s)] *)
Fixpoint search_ticks (s : string) : option string :=
  match match_ticks_at s with
  | Some ticks => Some ticks
  | None =>
    match s with
    | EmptyString => None
    | String _ rest => search_ticks rest
    end
  end.

(** The mapping [get_system_info] returns; the two uptime keys are set
    together or not at all. *)
Record system_info := {
  system_name : string;
  system_description : string;
  uptime_seconds : option Q;
  uptime_formatted : option string;
  interface_count : Z
}.

Definition get_system_info (w : world) (self : monitor) : outcome system_info :=
  let name := snmp_get w self (oids "system_name") in
  let desc := snmp_get w self (oids "system_description") in
  let uptime_str := snmp_get w self (oids "system_uptime") in
  uptime <-
    (if truthy uptime_str then
       match uptime_str with
       | Some text =>
         match search_ticks text with
         | Some ticks =>
           match int ticks with
           | Some uptime_ticks => Return (Some (inject_Z uptime_ticks / 100)%Q)
           | None => Raise ValueError
           end
         | None => Return None
         end
       | None => Return None
       end
     else Return None) ;;
  let count := snmp_get w self (oids "interfaces_count") in
  interface_count <-
    (if truthy count then
       match count with
       | Some text =>
         match int text with
         | Some n => Return n
         | None => Raise ValueError
         end
       | None => Return 0%Z
       end
     else Return 0%Z) ;;
  Return {| system_name := or_else name "Unknown";
            system_description := or_else desc "Unknown";
            uptime_seconds := uptime;
            uptime_formatted := option_map format_uptime uptime;
            interface_count := interface_count |}.


(** What [parse_walk_line] can produce. *)
Definition typed_entry (index : string) (value : value) : Prop :=
  index <> EmptyString /\ all_digits index = true /\
  match value with
  | VInt _ => True
  | VStr text => int text = None
  end.

(** The record [get_interfaces] stores for one entry of the description
    table, and the one [get_interface_stats] stores for one entry of the
    in-octets table. *)
Definition interface_of (speeds admin oper : dict value) (entry : string * value)
  : interface :=
  {| index := fst entry;
     name := str (snd entry);
     speed := get_default speeds (fst entry) (VInt 0);
     admin_status := get_default admin (fst entry) (VInt 0);
     oper_status := get_default oper (fst entry) (VInt 0);
     admin_status_text := get_status_text (get_default admin (fst entry) (VInt 0));
     oper_status_text := get_status_text (get_default oper (fst entry) (VInt 0)) |}.

Definition stats_of (in_octets_table out_octets_table in_packets_table
                     out_packets_table : dict value) (entry : string * value)
  : interface_stats :=
  {| in_octets := get_default in_octets_table (fst entry) (VInt 0);
     out_octets := get_default out_octets_table (fst entry) (VInt 0);
     in_packets := get_default in_packets_table (fst entry) (VInt 0);
     out_packets := get_default out_packets_table (fst entry) (VInt 0) |}.

(** *** Sample worlds *)

Definition sample_monitor : monitor := {| host := "10.0.0.5"; community := "public" |}.

(** No command answers. *)
Definition silent_world : world := scripted_world [] [].

(** The interface-description walk answers with an empty table. *)
Definition empty_table_world : world :=
  scripted_world [(walk_command sample_monitor (oids "interface_desc"), EmptyString)] [].

(** One interface, whose administrative status is reported as free text
    with a parenthesis. *)
Definition odd_status_world : world :=
  scripted_world
    [(walk_command sample_monitor (oids "interface_desc"),
      "iso.3.6.1.2.1.2.2.1.2.1 = STRING: eth0");
     (walk_command sample_monitor (oids "interface_admin_status"),
      "iso.3.6.1.2.1.2.2.1.7.1 = STRING: off(line)");
     (walk_command sample_monitor (oids "interface_oper_status"),
      "iso.3.6.1.2.1.2.2.1.8.1 = INTEGER: up(1)")]
    [].



End SimpleSnmp.

(** ** snmp_monitor.py: the rate engine *)

Module SnmpMonitor.
Import Py.

(** One entry of [get_interface_statistics]. *)
Record stats := {
  in_octets : Z;
  in_packets : Z;
  in_errors : Z;
  out_octets : Z;
  out_packets : Z;
  out_errors : Z
}.

(** One entry of the result of [calculate_rates]. *)
Record rate := {
  in_bps : Q;
  out_bps : Q;
  in_pps : Q;
  out_pps : Q;
  in_mbps : Q;
  out_mbps : Q
}.

(** [x / y] *)
Definition truediv (x y : Q) : outcome Q :=
  if Qeq_bool y 0 then Raise ZeroDivisionError else Return (x / y)%Q.

(** [max(0, x)]: [x] when [x > 0], else the first argument. *)
Definition max0 (x : Q) : Q :=
  if Qle_bool x 0 then 0%Q else x.

(** The body of the loop of [calculate_rates]. *)
Definition rates_of_index (previous_stats : dict stats) (time_diff : Q)
           (rates : dict rate) (entry : string * stats) : outcome (dict rate) :=
  let index := fst entry in
  match get previous_stats index with
  | Some prev =>
    let curr := snd entry in
    in_rate <- truediv (inject_Z (in_octets curr - in_octets prev)) time_diff ;;
    let in_bps := max0 in_rate in
    out_rate <- truediv (inject_Z (out_octets curr - out_octets prev)) time_diff ;;
    let out_bps := max0 out_rate in
    in_prate <- truediv (inject_Z (in_packets curr - in_packets prev)) time_diff ;;
    let in_pps := max0 in_prate in
    out_prate <- truediv (inject_Z (out_packets curr - out_packets prev)) time_diff ;;
    let out_pps := max0 out_prate in
    Return (set rates index
                {| in_bps := in_bps;
                   out_bps := out_bps;
                   in_pps := in_pps;
                   out_pps := out_pps;
                   in_mbps := (in_bps * 8 / 1000000)%Q;
                   out_mbps := (out_bps * 8 / 1000000)%Q |})
  | None => Return rates
  end.

Definition calculate_rates (current_stats previous_stats : dict stats) (time_diff : Q)
  : outcome (dict rate) :=
  for_each (rates_of_index previous_stats time_diff) current_stats [].

(** The entry the loop body stores for one index when no division raises,
    and the loop built from it; used to reason about [calculate_rates]. *)
Definition rate_of (curr prev : stats) (time_diff : Q) : rate :=
  let in_bps := max0 (inject_Z (in_octets curr - in_octets prev) / time_diff)%Q in
  let out_bps := max0 (inject_Z (out_octets curr - out_octets prev) / time_diff)%Q in
  {| in_bps := in_bps;
     out_bps := out_bps;
     in_pps := max0 (inject_Z (in_packets curr - in_packets prev) / time_diff)%Q;
     out_pps := max0 (inject_Z (out_packets curr - out_packets prev) / time_diff)%Q;
     in_mbps := (in_bps * 8 / 1000000)%Q;
     out_mbps := (out_bps * 8 / 1000000)%Q |}.

Definition store_rate (previous_stats : dict stats) (time_diff : Q)
           (rates : dict rate) (entry : string * stats) : dict rate :=
  match get previous_stats (fst entry) with
  | Some prev => set rates (fst entry) (rate_of (snd entry) prev time_diff)
  | None => rates
  end.

(** The same expressions on binary64 numbers, as the interpreter evaluates
    them: the difference of two [int] counters is converted to the nearest
    [float] (beyond the range of binary64 the conversion is refused there,
    and is infinite here) and divided by the time difference. *)
Definition float_of_int (n : Z) : float :=
  SF2Prim (binary_normalize prec emax n 0 false).

Definition bps_binary64 (curr prev : Z) (time_diff : float) : float :=
  let rate := (float_of_int (curr - prev) / time_diff)%float in
  if (0 <? rate)%float then rate else 0%float.

Definition mbps_binary64 (bps : float) : float := (bps * 8 / 1000000)%float.

(** The binary64 number the literal 0.0016 denotes. *)
Definition literal_0_0016 : float := 0x1.a36e2eb1c432dp-10%float.

(** The fixed linear transform between the bps and the Mbps fields. *)
Definition mbps_of_bps (r : rate) : Prop :=
  in_mbps r = (in_bps r * 8 / 1000000)%Q /\ out_mbps r = (out_bps r * 8 / 1000000)%Q.


(** Two sample snapshots: interface 1 is polled twice (in-octets 1000 then
    2000, in-packets falling from 20 to 10), interface 2 appears later. *)
Definition sample_previous : dict stats :=
  [("1", {| in_octets := 1000; in_packets := 20; in_errors := 0;
            out_octets := 40; out_packets := 5; out_errors := 0 |})].

Definition sample_current : dict stats :=
  [("1", {| in_octets := 2000; in_packets := 10; in_errors := 0;
            out_octets := 50; out_packets := 5; out_errors := 0 |});
   ("2", {| in_octets := 1; in_packets := 1; in_errors := 0;
            out_octets := 1; out_packets := 1; out_errors := 0 |})].

End SnmpMonitor.

(** ** nms_discovery.py *)

Module Discovery.
Import Py Env.

(** One entry of [device_info['interfaces']]. *)
Record iface := {
  name : string;
  admin_status : string;
  oper_status : string;
  speed : value;
  in_octets : value;
  out_octets : value;
  in_packets : value;
  out_packets : value
}.

(** [device_info] *)
Record device := {
  ip : string;
  system_name : string;
  system_description : string;
  system_uptime : option string;
  system_contact : string;
  system_location : string;
  discovered_at : string;
  device_type : string;
  snmp_community : string;
  interfaces : dict iface;
  neighbors : list string
}.

Record node := {
  node_id : string;
  node_label : string;
  node_type : string;
  node_ip : string;
  node_interfaces : nat;
  node_status : string;
  node_uptime : option string;
  node_description : string;
  node_location : string
}.

(** The keys [interface] and [status] exist on synthesized host links only. *)
Record link := {
  source : string;
  target : string;
  link_type : string;
  bandwidth : string;
  link_interface : option string;
  link_status : option string
}.

Record topology_graph := {
  nodes : list node;
  links : list link
}.

(** The attributes of a [DeviceDiscovery] object. *)
Record discovery := {
  community : string;
  timeout : Z;
  discovered_devices : dict device;
  topology : topology_graph
}.

Definition ping_host (w : world) (ip : string) : bool :=
  match ping w ip with
  | Completed returncode _ _ => (returncode =? 0)%Z
  | TimeoutExpired => false
  | OtherError => false
  end.


(** [any(keyword in desc_lower for keyword in keywords)] *)
Definition any_keyword_in (keywords : list string) (desc_lower : string) : bool :=
  existsb (fun keyword => contains keyword desc_lower) keywords.

Definition identify_device_type (system_desc : option string) : string :=
  if negb (truthy system_desc) then "unknown"
  else
    match system_desc with
    | None => "unknown"
    | Some desc =>
      let desc_lower := lower desc in
      if any_keyword_in ["switch"; "catalyst"; "nexus"] desc_lower then "switch"
      else if any_keyword_in ["router"; "asr"; "isr"] desc_lower then "router"
      else if any_keyword_in ["linux"; "ubuntu"; "centos"; "host"] desc_lower then "host"
      else if any_keyword_in ["mininet"; "openvswitch"; "ovs"] desc_lower then "virtual_switch"
      else if any_keyword_in ["firewall"; "asa"; "pix"] desc_lower then "firewall"
      else if any_keyword_in ["access point"; "ap"; "wireless"] desc_lower then "access_point"
      else "unknown"
    end.

(** The design document's reading: an ordered table of
    (keyword set, type) rules, the first matching rule wins. *)
Definition device_types : list string :=
  ["switch"; "router"; "host"; "virtual_switch"; "firewall"; "access_point"; "unknown"].

Definition keyword_rules : list (list string * string) :=
  [ (["switch"; "catalyst"; "nexus"], "switch");
    (["router"; "asr"; "isr"], "router");
    (["linux"; "ubuntu"; "centos"; "host"], "host");
    (["mininet"; "openvswitch"; "ovs"], "virtual_switch");
    (["firewall"; "asa"; "pix"], "firewall");
    (["access point"; "ap"; "wireless"], "access_point") ].

Fixpoint first_matching_rule (rules : list (list string * string)) (desc_lower : string)
  : string :=
  match rules with
  | [] => "unknown"
  | (keywords, type) :: rest =>
    if any_keyword_in keywords desc_lower then type
    else first_matching_rule rest desc_lower
  end.

Definition classify_by_priority (system_desc : option string) : string :=
  match system_desc with
  | Some (String _ _ as desc) => first_matching_rule keyword_rules (lower desc)
  | _ => "unknown"
  end.


(** [SimpleSnmpMonitor(str(ip), self.community)] *)
Definition monitor_for (self : discovery) (ip : string) : SimpleSnmp.monitor :=
  {| SimpleSnmp.host := ip; SimpleSnmp.community := community self |}.

Definition snmp_probe (w : world) (self : discovery) (ip : string) : option device :=
  let monitor := monitor_for self ip in
  let system_desc := SimpleSnmp.snmp_get w monitor "1.3.6.1.2.1.1.1.0" in
  if negb (truthy system_desc) then None
  else
    match system_desc with
    | None => None
    | Some desc =>
      let interfaces := SimpleSnmp.get_interfaces w monitor in
      let stats := SimpleSnmp.get_interface_stats w monitor in
      let zero := VInt 0 in
      Some
        {| ip := ip;
           system_name :=
             or_else (SimpleSnmp.snmp_get w monitor "1.3.6.1.2.1.1.5.0") ("Device-" ++ ip);
           system_description := desc;
           system_uptime := SimpleSnmp.snmp_get w monitor "1.3.6.1.2.1.1.3.0";
           system_contact :=
             or_else (SimpleSnmp.snmp_get w monitor "1.3.6.1.2.1.1.4.0") "Unknown";
           system_location :=
             or_else (SimpleSnmp.snmp_get w monitor "1.3.6.1.2.1.1.6.0") "Unknown";
           discovered_at := now w;
           device_type := identify_device_type system_desc;
           snmp_community := community self;
           interfaces :=
             fold_left
               (fun acc entry =>
                  let index := fst entry in
                  let interface := snd entry in
                  let interface_stats := get stats index in
                  let stat field :=
                    match interface_stats with
                    | Some st => field st
                    | None => zero
                    end in
                  set acc index
                      {| name := SimpleSnmp.name interface;
                         admin_status := SimpleSnmp.admin_status_text interface;
                         oper_status := SimpleSnmp.oper_status_text interface;
                         speed := SimpleSnmp.speed interface;
                         in_octets := stat SimpleSnmp.in_octets;
                         out_octets := stat SimpleSnmp.out_octets;
                         in_packets := stat SimpleSnmp.in_packets;
                         out_packets := stat SimpleSnmp.out_packets |})
               interfaces [];
           neighbors := [] |}
    end.

(** The record [snmp_probe] stores for one interface of the monitor. *)
Definition iface_of (stats : dict SimpleSnmp.interface_stats)
           (entry : string * SimpleSnmp.interface) : iface :=
  let counter field :=
    match get stats (fst entry) with
    | Some st => field st
    | None => VInt 0
    end in
  {| name := SimpleSnmp.name (snd entry);
     admin_status := SimpleSnmp.admin_status_text (snd entry);
     oper_status := SimpleSnmp.oper_status_text (snd entry);
     speed := SimpleSnmp.speed (snd entry);
     in_octets := counter SimpleSnmp.in_octets;
     out_octets := counter SimpleSnmp.out_octets;
     in_packets := counter SimpleSnmp.in_packets;
     out_packets := counter SimpleSnmp.out_packets |}.

(** What a discovery run asks of the network. *)
Inductive event :=
| Pinged (ip : string)
| Probed (ip : string).

Definition with_devices (self : discovery) (devices : dict device) : discovery :=
  {| community := community self;
     timeout := timeout self;
     discovered_devices := devices;
     topology := topology self |}.

(** The result is the returned mapping (or the exception that escapes), the
    object afterwards, and the probes dispatched. *)
Definition discover_network_range (w : world) (self : discovery)
           (network_range : string) (max_workers : Z)
  : outcome (dict device) * discovery * list event :=
  match network_hosts w network_range with
  | None => (Return [], self, [])
  | Some hosts =>
    (* ThreadPoolExecutor(max_workers=...) refuses a pool without workers *)
    if (max_workers <=? 0)%Z then (Raise ValueError, self, [])
    else
      let ping_results :=
        fold_left
          (fun acc ip => if ping_host w ip then set acc ip true else acc)
          (as_completed w hosts) [] in
      let reachable := keys ping_results in
      let discovered :=
        match ping_results with
        | [] => []
        | _ :: _ =>
          fold_left
            (fun acc ip =>
               match snmp_probe w self ip with
               | Some device_info => set acc ip device_info
               | None => acc
               end)
            (as_completed w reachable) []
        end in
      (Return discovered,
       with_devices self (update (discovered_devices self) discovered),
       (map Pinged hosts ++ map Probed reachable)%list)
  end.

Definition discover_localhost (w : world) (self : discovery)
  : dict device * discovery :=
  match snmp_probe w self "127.0.0.1" with
  | Some device_info =>
    ([("127.0.0.1", device_info)],
     with_devices self (set (discovered_devices self) "127.0.0.1" device_info))
  | None => ([], self)
  end.

(** *** Topology *)

Definition node_of_device (ip : string) (device : device) : node :=
  {| node_id := ip;
     node_label := system_name device;
     node_type := device_type device;
     node_ip := ip;
     node_interfaces := List.length (interfaces device);
     node_status := match interfaces device with [] => "unknown" | _ :: _ => "up" end;
     node_uptime := system_uptime device;
     node_description := system_description device;
     node_location := system_location device |}.

Definition is_mininet_interface (iface : iface) : bool :=
  contains "s1-eth" (name iface) || contains "s2-eth" (name iface)
  || contains "s3-eth" (name iface).

Definition switch_node (localhost_device : device) (mininet_interfaces : list iface)
  : node :=
  {| node_id := "s1";
     node_label := "s1";
     node_type := "switch";
     node_ip := "127.0.0.1";
     node_interfaces := List.length mininet_interfaces;
     node_status := "up";
     node_uptime := system_uptime localhost_device;
     node_description := "Mininet Switch";
     node_location := "Virtual" |}.

Definition host_id (i : nat) : string := "h" ++ str_of_nat (i + 1).

Definition host_node (i : nat) (iface : iface) : node :=
  {| node_id := host_id i;
     node_label := host_id i;
     node_type := "host";
     node_ip := "10.0.0." ++ str_of_nat (i + 1);
     node_interfaces := 1;
     node_status := if String.eqb (oper_status iface) "up" then "up" else "down";
     node_uptime := Some "Unknown";
     node_description := "Mininet Host " ++ str_of_nat (i + 1);
     node_location := "Virtual" |}.

Definition host_link (i : nat) (iface : iface) : link :=
  {| source := host_id i;
     target := "s1";
     link_type := "host_link";
     bandwidth := "100Mbps";
     link_interface := Some (name iface);
     link_status := Some (oper_status iface) |}.

(** The predicate of the comprehensions of [have_interconnect]; comparing a
    [str] counter with [0] raises. *)
Definition is_active (iface : iface) : outcome bool :=
  if String.eqb (oper_status iface) "up" then
    match in_octets iface with
    | VInt n => Return ((0 <? n)%Z && contains "eth" (name iface))
    | VStr _ => Raise TypeError
    end
  else Return false.

Definition active_interfaces (ifaces : list iface) : outcome (list iface) :=
  for_each
    (fun acc iface =>
       keep <- is_active iface ;;
       Return (if keep then acc ++ [iface] else acc)%list)
    ifaces [].

Definition have_interconnect (dev1 dev2 : device) : outcome bool :=
  let dev1_interfaces := values (interfaces dev1) in
  let dev2_interfaces := values (interfaces dev2) in
  dev1_active <- active_interfaces dev1_interfaces ;;
  dev2_active <- active_interfaces dev2_interfaces ;;
  Return ((1 <? List.length dev1_active)%nat && (1 <? List.length dev2_active)%nat).

Definition same_subnet (ip1 ip2 : string) : bool :=
  let ip1_parts := split "." ip1 in
  let ip2_parts := split "." ip2 in
  if list_eq_dec string_dec (firstn 3 ip1_parts) (firstn 3 ip2_parts)
  then true else false.

Definition switch_link (ip1 ip2 : string) : link :=
  {| source := ip1;
     target := ip2;
     link_type := "switch_link";
     bandwidth := "100Mbps";
     link_interface := None;
     link_status := None |}.

Definition subnet_link (host_ip switch_ip : string) : link :=
  {| source := host_ip;
     target := switch_ip;
     link_type := "host_link";
     bandwidth := "10Mbps";
     link_interface := None;
     link_status := None |}.

(** [detect_links] appends to the list it is given. *)
Definition detect_links (self : discovery) (links : list link) : outcome (list link) :=
  let switch_devices :=
    filter (fun entry => mem (device_type (snd entry)) ["switch"; "virtual_switch"])
           (discovered_devices self) in
  let host_devices :=
    filter (fun entry => String.eqb (device_type (snd entry)) "host")
           (discovered_devices self) in
  links <-
    for_each
      (fun links first =>
         for_each
           (fun links second =>
              if (fst first <? fst second)%nat then
                linked <- have_interconnect (snd (snd first)) (snd (snd second)) ;;
                Return (if linked
                        then links ++ [switch_link (fst (snd first)) (fst (snd second))]
                        else links)%list
              else Return links)
           (enumerate switch_devices) links)
      (enumerate switch_devices) links ;;
  Return
    (fold_left
       (fun links host =>
          match find (fun switch => same_subnet (fst host) (fst switch)) switch_devices with
          | Some switch => links ++ [subnet_link (fst host) (fst switch)]
          | None => links
          end)%list
       host_devices links).

Definition with_topology (self : discovery) (topology : topology_graph) : discovery :=
  {| community := community self;
     timeout := timeout self;
     discovered_devices := discovered_devices self;
     topology := topology |}.

Definition build_topology (self : discovery) : outcome topology_graph * discovery :=
  let nodes :=
    map (fun entry => node_of_device (fst entry) (snd entry)) (discovered_devices self) in
  let links : list link := [] in
  let mininet_interfaces :=
    if (List.length (discovered_devices self) =? 1)%nat
       && has_key (discovered_devices self) "127.0.0.1"
    then
      match get (discovered_devices self) "127.0.0.1" with
      | Some localhost_device =>
        filter is_mininet_interface (values (interfaces localhost_device))
      | None => []
      end
    else [] in
  let expanded :=
    match mininet_interfaces, get (discovered_devices self) "127.0.0.1" with
    | _ :: _, Some localhost_device =>
      let nodes := (nodes ++ [switch_node localhost_device mininet_interfaces])%list in
      let nodes :=
        (nodes ++ map (fun entry => host_node (fst entry) (snd entry))
                      (enumerate mininet_interfaces))%list in
      let links :=
        (links ++ map (fun entry => host_link (fst entry) (snd entry))
                      (enumerate mininet_interfaces))%list in
      let nodes := filter (fun n => negb (String.eqb (node_id n) "127.0.0.1")) nodes in
      let nodes := filter (fun n => negb (String.eqb (node_id n) "127.0.0.1")) nodes in
      (nodes, links)
    | _, _ => (nodes, links)
    end in
  let nodes := fst expanded in
  let links := snd expanded in
  let detected :=
    match mininet_interfaces with
    | [] => detect_links self links
    | _ :: _ => Return links
    end in
  match detected with
  | Return links =>
    let topology := {| nodes := nodes; links := links |} in
    (Return topology, with_topology self topology)
  | Raise e => (Raise e, self)
  end.

(** *** Statistics of one device *)

(** The [system_info] entry: the fixed one of a virtual node, or the one
    the monitor returned. *)
Inductive stats_info :=
| VirtualInfo (hostname uptime_formatted : string) (interface_count : nat)
| MonitorInfo (info : SimpleSnmp.system_info).

Record device_stats := {
  stats_system_info : stats_info;
  stats_interfaces : dict iface;
  stats_timestamp : string
}.

Definition _get_virtual_host_stats (w : world) (host_id : string) : device_stats :=
  {| stats_system_info := VirtualInfo host_id "1h 23m" 1;
     stats_interfaces :=
       [("1", {| name := host_id ++ "-eth0";
                 admin_status := "up";
                 oper_status := "up";
                 speed := VInt 100000000;
                 in_octets := VInt 1024000;
                 out_octets := VInt 512000;
                 in_packets := VInt 1500;
                 out_packets := VInt 1200 |})];
     stats_timestamp := now w |}.

(** Nothing in the guarded block can raise here, so its fallback to
    [_get_virtual_host_stats('s1')] does not appear. *)
Definition _get_virtual_switch_stats (w : world) (self : discovery) : device_stats :=
  let monitor := monitor_for self "127.0.0.1" in
  let interfaces := SimpleSnmp.get_interfaces w monitor in
  let stats := SimpleSnmp.get_interface_stats w monitor in
  let switch_interfaces :=
    fold_left
      (fun acc entry =>
         if contains "s1-eth" (SimpleSnmp.name (snd entry))
         then set acc (fst entry) (iface_of stats entry)
         else acc)
      interfaces [] in
  {| stats_system_info := VirtualInfo "s1" "1h 23m" (List.length switch_interfaces);
     stats_interfaces := switch_interfaces;
     stats_timestamp := now w |}.

Definition get_device_stats (w : world) (self : discovery) (ip : string)
  : option device_stats :=
  if String.prefix "h" ip && isdigit (from_second ip) then
    Some (_get_virtual_host_stats w ip)
  else if String.eqb ip "s1" then
    Some (_get_virtual_switch_stats w self)
  else if negb (has_key (discovered_devices self) ip) then None
  else
    let monitor := monitor_for self ip in
    match SimpleSnmp.get_system_info w monitor with
    | Return system_info =>
      let interfaces := SimpleSnmp.get_interfaces w monitor in
      let stats := SimpleSnmp.get_interface_stats w monitor in
      Some {| stats_system_info := MonitorInfo system_info;
              stats_interfaces :=
                fold_left (fun acc entry => set acc (fst entry) (iface_of stats entry))
                          interfaces [];
              stats_timestamp := now w |}
    | Raise _ => None
    end.

(** *** The synthetic expansion, as the design document describes it *)

(** The graph has exactly one switch node, named s1, three host nodes and
    nothing else, three links, each a host link with s1 at one end; no node
    carries [address]. *)
Definition expanded_around_s1 (address : string) (graph : topology_graph) : Prop :=
  (exists switch,
      filter (fun n => String.eqb (node_type n) "switch") (nodes graph) = [switch]
      /\ node_id switch = "s1") /\
  List.length (filter (fun n => String.eqb (node_type n) "host") (nodes graph)) = 3%nat /\
  List.length (nodes graph) = 4%nat /\
  List.length (links graph) = 3%nat /\
  Forall (fun l => link_type l = "host_link" /\ (source l = "s1" \/ target l = "s1"))
         (links graph) /\
  ~ In address (map node_id (nodes graph)).

Definition switch_port_names : list string := ["s1-eth1"; "s1-eth2"; "s1-eth3"].

(** *** Sample data *)

Definition sample_port (port_name status : string) (octets : value) : iface :=
  {| name := port_name;
     admin_status := "up";
     oper_status := status;
     speed := VInt 10000000;
     in_octets := octets;
     out_octets := VInt 0;
     in_packets := VInt 0;
     out_packets := VInt 0 |}.

Definition sample_device (address : string) : device :=
  {| ip := address;
     system_name := "ubuntu";
     system_description := "Linux ubuntu 5.15";
     system_uptime := Some "(12345) 0:02:03.45";
     system_contact := "Unknown";
     system_location := "Unknown";
     discovered_at := "2024-01-01T00:00:00";
     device_type := "host";
     snmp_community := "public";
     interfaces :=
       [("5", sample_port "s1-eth1" "up" (VInt 100));
        ("6", sample_port "s1-eth2" "down" (VInt 0));
        ("7", sample_port "s1-eth3" "up" (VInt 7))];
     neighbors := [] |}.

Definition sample_discovery (devices : dict device) : discovery :=
  {| community := "public";
     timeout := 5;
     discovered_devices := devices;
     topology := {| nodes := []; links := [] |} |}.

(** A device answers the description and name queries and nothing else. *)
Definition terse_device_world : world :=
  scripted_world
    [(SimpleSnmp.get_command SimpleSnmp.sample_monitor "1.3.6.1.2.1.1.1.0",
      "iso.3.6.1.2.1.1.1.0 = STRING: Linux ubuntu 5.15");
     (SimpleSnmp.get_command SimpleSnmp.sample_monitor "1.3.6.1.2.1.1.5.0",
      "iso.3.6.1.2.1.1.5.0 = STRING: ubuntu")]
    [].

(** A device answers the description query with a pair of quotes. *)
Definition blank_description_world : world :=
  scripted_world
    [(SimpleSnmp.get_command SimpleSnmp.sample_monitor "1.3.6.1.2.1.1.1.0",
      "iso.3.6.1.2.1.1.1.0 = STRING: " ++ String quote (String quote EmptyString))]
    [].

(** A device with two interfaces; the in-octets table lists the first only,
    the out-octets table lists both. *)
Definition partial_counters_world : world :=
  scripted_world
    [(SimpleSnmp.get_command SimpleSnmp.sample_monitor "1.3.6.1.2.1.1.1.0",
      "iso.3.6.1.2.1.1.1.0 = STRING: Linux ubuntu 5.15");
     (SimpleSnmp.walk_command SimpleSnmp.sample_monitor (SimpleSnmp.oids "interface_desc"),
      "iso.3.6.1.2.1.2.2.1.2.1 = STRING: lo" ++ String newline
      "iso.3.6.1.2.1.2.2.1.2.2 = STRING: eth0");
     (SimpleSnmp.walk_command SimpleSnmp.sample_monitor
                              (SimpleSnmp.oids "interface_in_octets"),
      "iso.3.6.1.2.1.2.2.1.10.1 = Counter32: 1234");
     (SimpleSnmp.walk_command SimpleSnmp.sample_monitor
                              (SimpleSnmp.oids "interface_out_octets"),
      "iso.3.6.1.2.1.2.2.1.16.1 = Counter32: 10" ++ String newline
      "iso.3.6.1.2.1.2.2.1.16.2 = Counter32: 99")]
    [].

(** One range parses; no address answers a ping. *)
Definition unanswered_world : world :=
  scripted_world [] [("192.0.2.0/30", ["192.0.2.1"; "192.0.2.2"])].

(** A dotted address built from four fields. *)
Definition dotted (a b c d : string) : string := a ++ "." ++ b ++ "." ++ c ++ "." ++ d.

(** The devices [detect_links] treats as switches. *)
Definition is_switch_device (device : device) : bool :=
  mem (device_type device) ["switch"; "virtual_switch"].

(** What a link produced by [detect_links] joins: two switches, or a host
    and a switch of its subnet. *)
Definition typed_link (devices : dict device) (l : link) : Prop :=
  exists source_device target_device,
    In (source l, source_device) devices /\
    In (target l, target_device) devices /\
    is_switch_device target_device = true /\
    ((link_type l = "switch_link" /\ is_switch_device source_device = true)
     \/ (link_type l = "host_link" /\ device_type source_device = "host"
         /\ same_subnet (source l) (target l) = true)).

(** [l] is a host link that starts at [address]. *)
Definition host_link_from (address : string) (l : link) : bool :=
  String.eqb (link_type l) "host_link" && String.eqb (source l) address.

(** Two switches with two busy Ethernet ports each, and two hosts, one of
    them on the subnet of the switches. *)
Definition sample_switch (address : string) : device :=
  {| ip := address;
     system_name := "core";
     system_description := "Cisco Catalyst switch";
     system_uptime := Some "(500) 0:00:05.00";
     system_contact := "Unknown";
     system_location := "Unknown";
     discovered_at := "2024-01-01T00:00:00";
     device_type := "switch";
     snmp_community := "public";
     interfaces :=
       [("1", sample_port "eth0" "up" (VInt 5)); ("2", sample_port "eth1" "up" (VInt 7))];
     neighbors := [] |}.

Definition sample_campus : discovery :=
  sample_discovery
    [("10.0.0.1", sample_switch "10.0.0.1");
     ("10.0.0.2", sample_switch "10.0.0.2");
     ("10.0.0.9", sample_device "10.0.0.9");
     ("10.0.1.9", sample_device "10.0.1.9")].

(** Two switches, one of which reports a counter that is not a number. *)
Definition sample_broken : discovery :=
  sample_discovery
    [("10.0.0.1", sample_switch "10.0.0.1");
     ("10.0.0.2",
      {| ip := "10.0.0.2";
         system_name := "edge";
         system_description := "Open vSwitch";
         system_uptime := None;
         system_contact := "Unknown";
         system_location := "Unknown";
         discovered_at := "2024-01-01T00:00:00";
         device_type := "virtual_switch";
         snmp_community := "public";
         interfaces := [("1", sample_port "eth0" "up" (VStr "n/a"))];
         neighbors := [] |})].

(** The filter that drops the node of the local machine. *)
Definition not_localhost (n : node) : bool := negb (String.eqb (node_id n) "127.0.0.1").

(** The local machine answers the ping and the description query. *)
Definition local_world : world :=
  {| shell :=
       shell (scripted_world
                [(SimpleSnmp.get_command
                    {| SimpleSnmp.host := "127.0.0.1"; SimpleSnmp.community := "public" |}
                    "1.3.6.1.2.1.1.1.0",
                  "iso.3.6.1.2.1.1.1.0 = STRING: Linux ubuntu 5.15")] []);
     ping := fun ip =>
               if String.eqb ip "127.0.0.1" then Completed 0 EmptyString EmptyString
               else TimeoutExpired;
     network_hosts := fun network_range =>
                        if String.eqb network_range "127.0.0.1/32"
                        then Some ["127.0.0.1"] else None;
     now := "2024-01-01T00:00:00";
     as_completed := fun futures => futures;
     as_completed_perm := fun futures => Permutation_refl futures |}.

End Discovery.

(** ** nms_web.py: the discovery request *)

Module Web.
Import Py Env Discovery.

(** The JSON answer of [/api/discover]. *)
Inductive response :=
| Success (devices_found : nat) (topology : topology_graph)
| Failure (error : exn).

Definition with_community (self : discovery) (community : string) : discovery :=
  {| Discovery.community := community;
     timeout := timeout self;
     discovered_devices := discovered_devices self;
     topology := topology self |}.

(** [network_range] and [community] are the two keys of the request body,
    [None] when absent. The result is the answer and the discovery object of
    the interface afterwards. *)
Definition api_discover (w : world) (discovery : discovery)
           (network_range community : option string) : response * Discovery.discovery :=
  let network_range := match network_range with Some r => r | None => "127.0.0.1/32" end in
  let community := match community with Some c => c | None => "public" end in
  let discovery := with_community discovery community in
  let discovered :=
    if String.eqb network_range "127.0.0.1/32" then
      (Return (fst (discover_localhost w discovery)), snd (discover_localhost w discovery))
    else
      (fst (fst (discover_network_range w discovery network_range 20)),
       snd (fst (discover_network_range w discovery network_range 20))) in
  match fst discovered with
  | Return devices =>
    match build_topology (snd discovered) with
    | (Return topology, discovery) => (Success (List.length devices) topology, discovery)
    | (Raise e, discovery) => (Failure e, discovery)
    end
  | Raise e => (Failure e, snd discovered)
  end.

End Web.

(** ** Properties *)

Section PyFacts.
Import Py.

Lemma lower_ascii_idem (c : ascii) : lower_ascii (lower_ascii c) = lower_ascii c.
Proof. destruct c as [[] [] [] [] [] [] [] []]; reflexivity. Qed.

Lemma lower_idem (s : string) : lower (lower s) = lower s.
Proof.
  induction s as [|c s IH]; simpl; [reflexivity|].
  now rewrite lower_ascii_idem, IH.
Qed.

Lemma get_set_same {V} (d : dict V) k v : get (set d k v) k = Some v.
Proof.
  induction d as [|[k' v'] d IH]; simpl.
  - now rewrite String.eqb_refl.
  - destruct (String.eqb k k') eqn:E; simpl; rewrite E; [reflexivity | exact IH].
Qed.

Lemma get_set_other {V} (d : dict V) k v k' :
  k' <> k -> get (set d k v) k' = get d k'.
Proof.
  intros Hne.
  induction d as [|[k0 v0] d IH]; simpl.
  - destruct (String.eqb_spec k' k); [contradiction | reflexivity].
  - destruct (String.eqb_spec k k0) as [->|Hk]; simpl.
    + destruct (String.eqb_spec k' k0); [contradiction | reflexivity].
    + destruct (String.eqb k' k0); [reflexivity | exact IH].
Qed.

Lemma get_set {V} (d : dict V) k v k' :
  get (set d k v) k' = if String.eqb k' k then Some v else get d k'.
Proof.
  destruct (String.eqb_spec k' k) as [->|Hne].
  - apply get_set_same.
  - now apply get_set_other.
Qed.

Lemma in_keys_get {V} (d : dict V) k :
  In k (keys d) <-> exists v, get d k = Some v.
Proof.
  induction d as [|[k' v'] d IH]; simpl.
  - split; [intros [] | intros [v Hv]; discriminate].
  - destruct (String.eqb_spec k k') as [->|Hne].
    + split; [intros _; now exists v' | intros _; now left].
    + rewrite IH. split; [intros [Heq|H]; [congruence | exact H] | intros H; now right].
Qed.

Lemma get_none_not_in {V} (d : dict V) k : ~ In k (keys d) -> get d k = None.
Proof.
  intros Hnot. destruct (get d k) eqn:E; [|reflexivity].
  exfalso. apply Hnot. apply in_keys_get. now exists v.
Qed.

End PyFacts.

Section Classification.
Import Py Discovery.

Lemma identify_refines_table (system_desc : option string) :
  identify_device_type system_desc = classify_by_priority system_desc.
Proof.
  destruct system_desc as [[|c s]|]; reflexivity.
Qed.

Lemma classify_nonempty c s :
  classify_by_priority (Some (String c s))
  = first_matching_rule keyword_rules (lower (String c s)).
Proof. reflexivity. Qed.

Lemma first_matching_rule_range rules d :
  In (first_matching_rule rules d) ("unknown" :: map snd rules).
Proof.
  induction rules as [|[kws ty] rules IH]; simpl; [now left|].
  destruct (any_keyword_in kws d); [right; now left|].
  destruct IH as [IH|IH]; [now left | right; now right].
Qed.

Lemma first_matching_rule_first rules d before kws ty after :
  rules = (before ++ (kws, ty) :: after)%list ->
  (forall r, In r before -> any_keyword_in (fst r) d = false) ->
  any_keyword_in kws d = true ->
  first_matching_rule rules d = ty.
Proof.
  intros -> Hbefore Hhit.
  induction before as [|[kws' ty'] before IH]; simpl.
  - now rewrite Hhit.
  - pose proof (Hbefore (kws', ty') (or_introl eq_refl)) as Hmiss.
    simpl in Hmiss. rewrite Hmiss.
    apply IH. intros r Hr. apply Hbefore. now right.
Qed.

Lemma first_matching_rule_none rules d :
  (forall r, In r rules -> any_keyword_in (fst r) d = false) ->
  first_matching_rule rules d = "unknown".
Proof.
  induction rules as [|[kws ty] rules IH]; simpl; intros H; [reflexivity|].
  pose proof (H (kws, ty) (or_introl eq_refl)) as Hmiss.
  simpl in Hmiss. rewrite Hmiss.
  apply IH. intros r Hr. apply H. now right.
Qed.

(** C3. [identify_device_type] is a total function of the description whose
    value is one of the seven device types; the keyword sets are tried in the
    order switch, router, host, virtual_switch, firewall, access_point and the
    first set with a keyword occurring in the lower-cased description decides
    (a description with both "switch" and "linux" is a switch); letter case
    is irrelevant; a description matching no set, an empty one and an absent
    one are all "unknown". *)
Theorem identify_device_type_priority :
  (forall system_desc, In (identify_device_type system_desc) device_types) /\
  (forall system_desc,
      identify_device_type system_desc = classify_by_priority system_desc) /\
  (forall desc before keywords type after,
      keyword_rules = (before ++ (keywords, type) :: after)%list ->
      desc <> EmptyString ->
      (forall r, In r before -> any_keyword_in (fst r) (lower desc) = false) ->
      any_keyword_in keywords (lower desc) = true ->
      identify_device_type (Some desc) = type) /\
  (forall desc,
      contains "switch" (lower desc) = true ->
      contains "linux" (lower desc) = true ->
      identify_device_type (Some desc) = "switch") /\
  (forall d1 d2, lower d1 = lower d2 ->
      identify_device_type (Some d1) = identify_device_type (Some d2)) /\
  (forall desc,
      (forall r, In r keyword_rules -> any_keyword_in (fst r) (lower desc) = false) ->
      identify_device_type (Some desc) = "unknown") /\
  identify_device_type None = "unknown" /\
  identify_device_type (Some EmptyString) = "unknown".
Proof.
  split; [|split; [|split; [|split; [|split; [|split; [|split]]]]]].
  - intros sd. rewrite identify_refines_table.
    destruct sd as [[|c s]|];
      try (unfold device_types; cbn [classify_by_priority In]; tauto).
    rewrite classify_nonempty.
    pose proof (first_matching_rule_range keyword_rules (lower (String c s))) as H.
    unfold keyword_rules in H at 2. unfold device_types.
    cbn [map snd In] in H |- *. tauto.
  - apply identify_refines_table.
  - intros desc before kws ty after Hsplit Hne Hbefore Hhit.
    rewrite identify_refines_table.
    destruct desc as [|c s]; [congruence|].
    rewrite classify_nonempty.
    now apply (first_matching_rule_first _ _ before kws ty after).
  - intros desc Hsw _.
    rewrite identify_refines_table.
    destruct desc as [|c s]; [discriminate|].
    rewrite classify_nonempty.
    apply (first_matching_rule_first _ _ [] ["switch"; "catalyst"; "nexus"] "switch"
             (tl keyword_rules)); [reflexivity | intros r [] |].
    unfold any_keyword_in. cbn [existsb]. now rewrite Hsw.
  - intros d1 d2 Heq.
    rewrite !identify_refines_table.
    destruct d1 as [|c1 s1], d2 as [|c2 s2]; try discriminate; [reflexivity|].
    rewrite !classify_nonempty. now rewrite Heq.
  - intros desc Hnone.
    rewrite identify_refines_table.
    destruct desc as [|c s]; [reflexivity|].
    rewrite classify_nonempty.
    now apply first_matching_rule_none.
  - reflexivity.
  - reflexivity.
Qed.

(** The example of the design document, obtained from the theorem. *)
Lemma identify_device_type_priority_witness :
  identify_device_type (Some "Cisco SWITCH on Linux 5.x") = "switch".
Proof.
  apply (proj1 (proj2 (proj2 (proj2 identify_device_type_priority))));
    vm_compute; reflexivity.
Defined.

(** Lower-casing a description beforehand changes nothing. *)
Corollary identify_device_type_lower (desc : string) :
  identify_device_type (Some (lower desc)) = identify_device_type (Some desc).
Proof.
  rewrite !identify_refines_table.
  destruct desc as [|c s]; [reflexivity|].
  change (lower (String c s)) with (String (lower_ascii c) (lower s)).
  rewrite !classify_nonempty.
  change (String (lower_ascii c) (lower s)) with (lower (String c s)).
  now rewrite lower_idem.
Qed.

End Classification.


(** *** The rate engine *)

Section RateEngine.
Import Py SnmpMonitor.
Open Scope Q_scope.

Lemma truediv_nonzero x y : ~ y == 0 -> truediv x y = Return (x / y).
Proof.
  intros Hy. unfold truediv.
  destruct (Qeq_bool y 0) eqn:E; [|reflexivity].
  apply Qeq_bool_iff in E. contradiction.
Qed.

Lemma truediv_zero x y : y == 0 -> truediv x y = Raise ZeroDivisionError.
Proof.
  intros Hy. unfold truediv.
  apply Qeq_bool_iff in Hy. now rewrite Hy.
Qed.

Lemma rates_of_index_nonzero previous_stats time_diff rates entry :
  ~ time_diff == 0 ->
  rates_of_index previous_stats time_diff rates entry
  = Return (store_rate previous_stats time_diff rates entry).
Proof.
  intros Hy. unfold rates_of_index, store_rate.
  destruct (get previous_stats (fst entry)) as [prev|]; [|reflexivity].
  rewrite !truediv_nonzero by exact Hy. reflexivity.
Qed.

Lemma for_each_nonzero previous_stats time_diff current_stats rates :
  ~ time_diff == 0 ->
  for_each (rates_of_index previous_stats time_diff) current_stats rates
  = Return (fold_left (store_rate previous_stats time_diff) current_stats rates).
Proof.
  intros Hy. revert rates.
  induction current_stats as [|entry rest IH]; intros rates; simpl; [reflexivity|].
  rewrite rates_of_index_nonzero by exact Hy. apply IH.
Qed.

(** What the finished loop holds for each index. *)
Lemma get_stored_rates previous_stats time_diff current_stats rates index :
  NoDup (keys current_stats) ->
  get (fold_left (store_rate previous_stats time_diff) current_stats rates) index
  = match get current_stats index, get previous_stats index with
    | Some curr, Some prev => Some (rate_of curr prev time_diff)
    | _, _ => get rates index
    end.
Proof.
  revert rates.
  induction current_stats as [|[k c] rest IH]; intros rates Hnd; simpl.
  - reflexivity.
  - inversion Hnd as [|? ? Hnotin Hrest]; subst.
    rewrite IH by exact Hrest.
    unfold store_rate; simpl fst; simpl snd.
    destruct (String.eqb_spec index k) as [->|Hne].
    + rewrite (get_none_not_in rest k Hnotin).
      destruct (get previous_stats k) as [prev|]; [|reflexivity].
      apply get_set_same.
    + destruct (get rest index) as [curr|] eqn:Erest;
        destruct (get previous_stats index) as [prev|] eqn:Eprev; try reflexivity;
        destruct (get previous_stats k); try reflexivity;
        now apply get_set_other.
Qed.

Lemma max0_nonneg x : 0 <= max0 x.
Proof.
  unfold max0. destruct (Qle_bool x 0) eqn:E.
  - apply Qle_refl.
  - apply Qlt_le_weak. apply Qnot_le_lt. intros H.
    apply Qle_bool_iff in H. congruence.
Qed.

Lemma max0_of_nonpos x : x <= 0 -> max0 x = 0.
Proof.
  intros H. unfold max0. apply Qle_bool_iff in H. now rewrite H.
Qed.

Lemma decrease_over_positive (z : Z) (time_diff : Q) :
  (z < 0)%Z -> 0 < time_diff -> inject_Z z / time_diff <= 0.
Proof.
  intros Hz Ht. apply Qle_shift_div_r; [exact Ht|].
  rewrite Qmult_0_l. unfold Qle, inject_Z; simpl. lia.
Qed.

Lemma mbps_nonneg bps : 0 <= bps -> 0 <= bps * 8 / 1000000.
Proof.
  intros H. apply Qle_shift_div_l; [reflexivity|].
  rewrite Qmult_0_l. apply Qmult_le_0_compat; [exact H | discriminate].
Qed.

Lemma positive_nonzero (time_diff : Q) : 0 < time_diff -> ~ time_diff == 0.
Proof. intros Hlt Heq. rewrite Heq in Hlt. exact (Qlt_irrefl 0 Hlt). Qed.

(** C1. For a positive time difference [calculate_rates] returns; the
    result has an entry for exactly the indices present in both snapshots;
    and for such an index every counter that went down yields the rate 0
    exactly, all six rates being non-negative. *)
Theorem calculate_rates_intersection_clamped
        (current_stats previous_stats : dict stats) (time_diff : Q) :
  NoDup (keys current_stats) ->
  0 < time_diff ->
  exists rates,
    calculate_rates current_stats previous_stats time_diff = Return rates /\
    (forall index,
        In index (keys rates) <->
        In index (keys current_stats) /\ In index (keys previous_stats)) /\
    (forall index curr prev,
        get current_stats index = Some curr ->
        get previous_stats index = Some prev ->
        exists r,
          get rates index = Some r /\
          ((in_octets curr < in_octets prev)%Z -> in_bps r = 0) /\
          ((out_octets curr < out_octets prev)%Z -> out_bps r = 0) /\
          ((in_packets curr < in_packets prev)%Z -> in_pps r = 0) /\
          ((out_packets curr < out_packets prev)%Z -> out_pps r = 0) /\
          0 <= in_bps r /\ 0 <= out_bps r /\ 0 <= in_pps r /\ 0 <= out_pps r /\
          0 <= in_mbps r /\ 0 <= out_mbps r).
Proof.
  intros Hnd Hpos.
  pose proof (positive_nonzero _ Hpos) as Hnz.
  exists (fold_left (store_rate previous_stats time_diff) current_stats []).
  split; [apply for_each_nonzero; exact Hnz|].
  split.
  - intros index. rewrite !in_keys_get.
    rewrite (get_stored_rates _ _ _ _ _ Hnd).
    destruct (get current_stats index) as [curr|];
      destruct (get previous_stats index) as [prev|]; simpl; split;
      try (intros [v Hv]; discriminate);
      try (intros [[v Hv] [v' Hv']]; discriminate).
    + intros _. split; eexists; reflexivity.
    + intros _. eexists; reflexivity.
  - intros index curr prev Hcurr Hprev.
    exists (rate_of curr prev time_diff).
    rewrite (get_stored_rates _ _ _ _ _ Hnd), Hcurr, Hprev.
    split; [reflexivity|].
    unfold rate_of; simpl.
    repeat split;
      try (intros Hlt; apply max0_of_nonpos, decrease_over_positive; [lia | exact Hpos]);
      try apply max0_nonneg;
      apply mbps_nonneg, max0_nonneg.
Qed.

(** The clamp observed on the sample snapshots: interface 1, whose packet
    counter fell, is the only index reported. *)
Lemma calculate_rates_intersection_clamped_witness :
  exists rates,
    calculate_rates sample_current sample_previous 5 = Return rates /\
    (In "1"%string (keys rates) /\ ~ In "2"%string (keys rates)).
Proof.
  destruct (calculate_rates_intersection_clamped sample_current sample_previous 5)
    as [rates [Hret [Hkeys _]]].
  - repeat constructor; simpl; intuition discriminate.
  - reflexivity.
  - exists rates. split; [exact Hret|]. split.
    + apply Hkeys. simpl. tauto.
    + intros Hin. apply Hkeys in Hin. simpl in Hin.
      destruct Hin as [_ [Heq|[]]]. discriminate.
Defined.

Lemma for_each_zero_raises previous_stats time_diff current_stats rates index :
  time_diff == 0 ->
  In index (keys current_stats) ->
  In index (keys previous_stats) ->
  for_each (rates_of_index previous_stats time_diff) current_stats rates
  = Raise ZeroDivisionError.
Proof.
  intros Hz Hcur Hprev. revert rates.
  induction current_stats as [|[k c] rest IH]; intros rates; [destruct Hcur|].
  simpl. unfold rates_of_index at 1. simpl fst.
  destruct (get previous_stats k) as [prev|] eqn:Ek.
  - rewrite truediv_zero by exact Hz. reflexivity.
  - apply IH. destruct Hcur as [Heq|Hin]; [|exact Hin].
    simpl in Heq. subst k. apply in_keys_get in Hprev.
    destruct Hprev as [v Hv]. congruence.
Qed.

Lemma for_each_zero_returns previous_stats time_diff current_stats rates result :
  time_diff == 0 ->
  for_each (rates_of_index previous_stats time_diff) current_stats rates = Return result ->
  result = rates.
Proof.
  intros Hz. revert rates.
  induction current_stats as [|[k c] rest IH]; intros rates; simpl.
  - congruence.
  - unfold rates_of_index at 1. simpl fst.
    destruct (get previous_stats k) as [prev|].
    + rewrite truediv_zero by exact Hz. discriminate.
    + apply IH.
Qed.

(** C4. With a time difference of zero and an index present in both
    snapshots, [calculate_rates] does not return an empty mapping: the
    division raises [ZeroDivisionError], which escapes to the caller. *)
Theorem calculate_rates_zero_delta_raises
        (current_stats previous_stats : dict stats) (time_diff : Q) (index : string) :
  time_diff == 0 ->
  In index (keys current_stats) ->
  In index (keys previous_stats) ->
  calculate_rates current_stats previous_stats time_diff = Raise ZeroDivisionError.
Proof.
  intros Hz Hcur Hprev. unfold calculate_rates.
  now apply (for_each_zero_raises _ _ _ _ index).
Qed.

Lemma calculate_rates_zero_delta_raises_witness :
  calculate_rates sample_current sample_previous 0 = Raise ZeroDivisionError.
Proof.
  apply (calculate_rates_zero_delta_raises _ _ _ "1"%string).
  - reflexivity.
  - simpl. tauto.
  - simpl. tauto.
Defined.

(** A negative time difference is not refused either: the signs flip, and
    the packet counter that fell from 20 to 10 is reported as 10 per second. *)
Lemma calculate_rates_negative_delta_sample :
  exists r,
    calculate_rates sample_current sample_previous (-1) = Return [("1"%string, r)] /\
    in_pps r == 10 /\ in_bps r = 0.
Proof. eexists. split; [reflexivity|]. split; reflexivity. Qed.

Lemma stored_rates_linear previous_stats time_diff current_stats rates :
  (forall index r, get rates index = Some r -> mbps_of_bps r) ->
  forall index r,
    get (fold_left (store_rate previous_stats time_diff) current_stats rates) index
    = Some r ->
    mbps_of_bps r.
Proof.
  revert rates.
  induction current_stats as [|[k c] rest IH]; intros rates Hinv; simpl; [exact Hinv|].
  apply IH. intros index r.
  unfold store_rate; simpl fst; simpl snd.
  destruct (get previous_stats k) as [prev|]; [|apply Hinv].
  rewrite get_set.
  destruct (String.eqb index k); [|apply Hinv].
  intros [= <-]. split; reflexivity.
Qed.

(** C9. In every entry [calculate_rates] returns, the Mbps fields are the
    bps fields times 8 over 1000000; and an interface whose in-octets went
    from 1000 to 2000 over 5 seconds gets in_bps = 200 and in_mbps = 0.0016,
    as exact rationals and also as binary64 numbers. *)
Theorem calculate_rates_mbps_linear :
  (forall current_stats previous_stats time_diff rates index r,
      calculate_rates current_stats previous_stats time_diff = Return rates ->
      get rates index = Some r ->
      in_mbps r = in_bps r * 8 / 1000000 /\
      out_mbps r = out_bps r * 8 / 1000000) /\
  (forall current_stats previous_stats index curr prev,
      NoDup (keys current_stats) ->
      get current_stats index = Some curr ->
      get previous_stats index = Some prev ->
      in_octets prev = 1000%Z ->
      in_octets curr = 2000%Z ->
      exists rates r,
        calculate_rates current_stats previous_stats 5 = Return rates /\
        get rates index = Some r /\
        in_bps r == 200 /\
        in_mbps r == 0.0016) /\
  (bps_binary64 2000 1000 5 = 200%float /\
   mbps_binary64 (bps_binary64 2000 1000 5) = literal_0_0016).
Proof.
  split; [|split; [|split; reflexivity]].
  - intros current_stats previous_stats time_diff rates index r Hret Hget.
    unfold calculate_rates in Hret.
    destruct (Qeq_dec time_diff 0) as [Hz|Hnz].
    + apply for_each_zero_returns in Hret; [|exact Hz]. subst rates. discriminate.
    + rewrite for_each_nonzero in Hret by exact Hnz.
      injection Hret as <-.
      apply (stored_rates_linear previous_stats time_diff current_stats [] ) with (index := index);
        [intros i r0 H0; discriminate | exact Hget].
  - intros current_stats previous_stats index curr prev Hnd Hcurr Hprev H1000 H2000.
    exists (fold_left (store_rate previous_stats 5) current_stats []).
    exists (rate_of curr prev 5).
    split; [apply for_each_nonzero; discriminate|].
    split; [now rewrite (get_stored_rates _ _ _ _ _ Hnd), Hcurr, Hprev|].
    unfold rate_of; simpl. rewrite H1000, H2000.
    split; reflexivity.
Qed.

(** The scenario on the sample snapshots. *)
Lemma calculate_rates_mbps_linear_witness :
  exists rates r,
    calculate_rates sample_current sample_previous 5 = Return rates /\
    get rates "1"%string = Some r /\
    in_bps r == 200 /\
    in_mbps r == 0.0016.
Proof.
  apply (proj1 (proj2 calculate_rates_mbps_linear) sample_current sample_previous "1"%string
               {| in_octets := 2000; in_packets := 10; in_errors := 0;
                  out_octets := 50; out_packets := 5; out_errors := 0 |}
               {| in_octets := 1000; in_packets := 20; in_errors := 0;
                  out_octets := 40; out_packets := 5; out_errors := 0 |}).
  - repeat constructor; simpl; intuition discriminate.
  - reflexivity.
  - reflexivity.
  - reflexivity.
  - reflexivity.
Defined.

End RateEngine.

(** *** Topology *)

Section Topology.
Import Py Discovery.

Lemma switch_port_is_mininet (iface : iface) :
  In (name iface) switch_port_names -> is_mininet_interface iface = true.
Proof.
  unfold switch_port_names, is_mininet_interface.
  intros [H|[H|[H|[]]]]; rewrite <- H; reflexivity.
Qed.

(** C2, as amended. When the registry holds exactly one device, registered
    under 127.0.0.1, whose interfaces are named s1-eth1, s1-eth2 and s1-eth3,
    [build_topology] returns (and stores) a graph with exactly one switch
    node s1, three host nodes, three host links each ending at s1, and no
    node for 127.0.0.1. *)
Theorem build_topology_localhost_expansion (self : discovery) (localhost_device : device) :
  discovered_devices self = [("127.0.0.1", localhost_device)] ->
  Permutation (map name (values (interfaces localhost_device))) switch_port_names ->
  exists graph,
    build_topology self = (Return graph, with_topology self graph) /\
    expanded_around_s1 "127.0.0.1" graph.
Proof.
  intros Hreg Hnames.
  assert (Hall : forall iface, In iface (values (interfaces localhost_device)) ->
                               is_mininet_interface iface = true).
  { intros iface Hin. apply switch_port_is_mininet.
    apply (Permutation_in _ Hnames). now apply in_map. }
  pose proof (Permutation_length Hnames) as Hlen.
  unfold switch_port_names in Hlen. rewrite length_map in Hlen.
  unfold values in Hlen, Hall. rewrite length_map in Hlen.
  destruct (interfaces localhost_device) as [|[k1 i1] [|[k2 i2] [|[k3 i3] [|]]]] eqn:Hifs;
    try discriminate Hlen.
  assert (H1 : is_mininet_interface i1 = true) by (apply Hall; simpl; tauto).
  assert (H2 : is_mininet_interface i2 = true) by (apply Hall; simpl; tauto).
  assert (H3 : is_mininet_interface i3 = true) by (apply Hall; simpl; tauto).
  eexists. split.
  - unfold build_topology. rewrite Hreg.
    cbn [List.length Nat.eqb has_key get String.eqb Ascii.eqb Bool.eqb andb].
    rewrite Hifs. cbn [values map snd fst filter]. rewrite H1, H2, H3.
    cbn [enumerate List.length seq combine map fst snd app filter node_of_device
         switch_node node_id String.eqb Ascii.eqb Bool.eqb negb].
    reflexivity.
  - unfold expanded_around_s1. cbn.
    repeat split.
    + eexists. split; reflexivity.
    + repeat constructor; cbn; tauto.
    + intros [H|[H|[H|[H|[]]]]]; discriminate H.
Qed.

Lemma build_topology_localhost_expansion_witness :
  exists graph,
    fst (build_topology (sample_discovery [("127.0.0.1", sample_device "127.0.0.1")]))
    = Return graph /\
    expanded_around_s1 "127.0.0.1" graph.
Proof.
  destruct (build_topology_localhost_expansion
              (sample_discovery [("127.0.0.1", sample_device "127.0.0.1")])
              (sample_device "127.0.0.1")) as [graph [Hbuild Hshape]].
  - reflexivity.
  - apply Permutation_refl.
  - exists graph. split; [now rewrite Hbuild | exact Hshape].
Defined.

(** The same device registered under another address is not expanded: the
    graph is its single node, without links. *)
Lemma build_topology_remote_device_not_expanded :
  discovered_devices (sample_discovery [("10.0.0.5", sample_device "10.0.0.5")])
  = [("10.0.0.5", sample_device "10.0.0.5")] /\
  map name (values (interfaces (sample_device "10.0.0.5"))) = switch_port_names /\
  exists graph,
    fst (build_topology (sample_discovery [("10.0.0.5", sample_device "10.0.0.5")]))
    = Return graph /\
    nodes graph = [node_of_device "10.0.0.5" (sample_device "10.0.0.5")] /\
    links graph = [] /\
    ~ expanded_around_s1 "10.0.0.5" graph.
Proof.
  split; [reflexivity|]. split; [reflexivity|].
  eexists. split; [reflexivity|]. split; [reflexivity|]. split; [reflexivity|].
  intros [_ [_ [Hfour _]]]. discriminate Hfour.
Qed.

Lemma is_active_raises iface e : is_active iface = Raise e -> e = TypeError.
Proof.
  unfold is_active.
  destruct (String.eqb (oper_status iface) "up"); [|discriminate].
  destruct (in_octets iface); [discriminate | congruence].
Qed.

Lemma active_interfaces_raises ifaces e :
  active_interfaces ifaces = Raise e -> e = TypeError.
Proof.
  unfold active_interfaces.
  set (body := fun (acc : list iface) (iface : iface) => _).
  generalize (@nil iface) as kept.
  induction ifaces as [|iface rest IH]; intros kept; simpl; [discriminate|].
  unfold body at 1.
  destruct (is_active iface) as [keep|e'] eqn:E; simpl.
  - apply IH.
  - intros [= <-]. now apply (is_active_raises iface).
Qed.

(** C10. [have_interconnect] does not depend on the order of its two
    devices: it returns the same boolean, or raises the same exception. *)
Theorem have_interconnect_symmetric (dev1 dev2 : device) :
  have_interconnect dev1 dev2 = have_interconnect dev2 dev1.
Proof.
  unfold have_interconnect.
  destruct (active_interfaces (values (interfaces dev1))) as [a1|e1] eqn:E1;
    destruct (active_interfaces (values (interfaces dev2))) as [a2|e2] eqn:E2;
    simpl.
  - now rewrite andb_comm.
  - reflexivity.
  - reflexivity.
  - apply active_interfaces_raises in E1, E2. congruence.
Qed.

End Topology.

(** *** The protocol access client *)

Section Monitor.
Import Py Env SimpleSnmp.

Lemma set_not_nil {V} (d : dict V) k v : set d k v <> [].
Proof.
  destruct d as [|[k' v'] d]; simpl; [discriminate|].
  destruct (String.eqb k k'); discriminate.
Qed.

Lemma walk_line_nil results line :
  walk_line results line = [] <-> results = [] /\ parse_walk_line line = None.
Proof.
  unfold walk_line.
  destruct (parse_walk_line line) as [[index value]|].
  - split; [intros H; now apply set_not_nil in H | intros [_ H]; discriminate].
  - tauto.
Qed.

Lemma fold_walk_line_nil lines results :
  fold_left walk_line lines results = [] <->
  results = [] /\ Forall (fun line => parse_walk_line line = None) lines.
Proof.
  revert results.
  induction lines as [|line rest IH]; intros results; simpl.
  - split; [intros H; split; [exact H | constructor] | tauto].
  - rewrite IH, walk_line_nil. split.
    + intros [[Hnil Hline] Hrest]. split; [exact Hnil | now constructor].
    + intros [Hnil Hall]. inversion Hall; subst. tauto.
Qed.

Lemma snmp_walk_unfold w self oid :
  snmp_walk w self oid =
  match run_snmp_command w (walk_command self oid) with
  | Some (String _ _ as text) => fold_left walk_line (split newline text) []
  | _ => []
  end.
Proof.
  unfold snmp_walk.
  destruct (run_snmp_command w (walk_command self oid)) as [[|c text]|]; reflexivity.
Qed.

(** C7, as amended. [snmp_walk] has no outcome of its own for a query that
    could not be performed: when the command fails (non-zero exit status,
    timeout, any other error) it returns the empty mapping, the value it also
    returns when the command ran and none of its output lines has the
    expected shape; it returns the empty mapping in these cases only. *)
Theorem snmp_walk_empty_mapping :
  (forall w self oid,
      run_snmp_command w (walk_command self oid) = None ->
      snmp_walk w self oid = []) /\
  (forall w self oid,
      snmp_walk w self oid = [] <->
      match run_snmp_command w (walk_command self oid) with
      | None => True
      | Some text =>
        Forall (fun line => parse_walk_line line = None) (split newline text)
      end).
Proof.
  split.
  - intros w self oid Hfail. now rewrite snmp_walk_unfold, Hfail.
  - intros w self oid. rewrite snmp_walk_unfold.
    destruct (run_snmp_command w (walk_command self oid)) as [[|c text]|].
    + split; [intros _; repeat constructor | reflexivity].
    + rewrite fold_walk_line_nil. tauto.
    + tauto.
Qed.

Lemma snmp_walk_empty_mapping_witness :
  snmp_walk silent_world sample_monitor (oids "interface_desc") = [].
Proof.
  apply (proj1 snmp_walk_empty_mapping). reflexivity.
Defined.

(** A walk that could not be performed and a walk of an empty table give
    the same value, the empty mapping. *)
Lemma snmp_walk_failure_is_empty_mapping :
  run_snmp_command silent_world (walk_command sample_monitor (oids "interface_desc"))
  = None /\
  snmp_walk silent_world sample_monitor (oids "interface_desc") = [] /\
  run_snmp_command empty_table_world (walk_command sample_monitor (oids "interface_desc"))
  = Some EmptyString /\
  snmp_walk empty_table_world sample_monitor (oids "interface_desc") = [].
Proof. repeat split. Qed.

Lemma status_map_get_range n : In (status_map_get n) status_texts.
Proof.
  unfold status_map_get, status_texts.
  destruct (n =? 1)%Z; [simpl; tauto|].
  destruct (n =? 2)%Z; [simpl; tauto|].
  destruct (n =? 3)%Z; simpl; tauto.
Qed.

Lemma mem_in x xs : mem x xs = true -> In x xs.
Proof.
  unfold mem. rewrite existsb_exists.
  intros [y [Hin Heq]]. apply String.eqb_eq in Heq. now subst.
Qed.

(** C8, as amended. [get_status_text] yields up, down, testing or unknown
    for every integer, for every string without a parenthesis, and for every
    string whose text between the first "(" and the next ")" reads as an
    integer; for any other string with a parenthesis it yields that string
    in lower case. *)
Theorem get_status_text_range :
  (forall n, In (get_status_text (VInt n)) status_texts) /\
  (forall text,
      has_char "(" text = false ->
      In (get_status_text (VStr text)) status_texts) /\
  (forall text part n,
      has_char "(" text = true ->
      numeric_part text = Some part ->
      int part = Some n ->
      In (get_status_text (VStr text)) status_texts) /\
  (forall text,
      has_char "(" text = true ->
      (forall part, numeric_part text = Some part -> int part = None) ->
      get_status_text (VStr text) = lower text).
Proof.
  split; [|split; [|split]].
  - intros n. apply status_map_get_range.
  - intros text Hplain. unfold get_status_text. rewrite Hplain.
    destruct (mem (lower text) ["up"; "down"; "testing"]) eqn:Hmem.
    + apply mem_in in Hmem. unfold status_texts. simpl in Hmem |- *. tauto.
    + destruct (int text); [apply status_map_get_range | unfold status_texts; simpl; tauto].
  - intros text part n Hparen Hpart Hint.
    unfold get_status_text. rewrite Hparen, Hpart, Hint.
    apply status_map_get_range.
  - intros text Hparen Hbad.
    unfold get_status_text. rewrite Hparen.
    destruct (numeric_part text) as [part|]; [|reflexivity].
    now rewrite (Hbad part eq_refl).
Qed.

Lemma get_status_text_range_witness :
  In (get_status_text (VStr "up(1)")) status_texts /\
  get_status_text (VStr "off(line)") = "off(line)".
Proof.
  split.
  - apply (proj1 (proj2 (proj2 get_status_text_range)) "up(1)" "1" 1%Z); reflexivity.
  - apply (proj2 (proj2 (proj2 get_status_text_range)) "off(line)"); [reflexivity|].
    intros part [= <-]. reflexivity.
Defined.

(** A status text outside the four values, as an interface record carries
    it after a walk that reported free text with a parenthesis. *)
Lemma get_status_text_outside_range :
  get_status_text (VStr "off(line)") = "off(line)" /\
  ~ In (get_status_text (VStr "off(line)")) status_texts /\
  exists interface,
    get (get_interfaces odd_status_world sample_monitor) "1" = Some interface /\
    admin_status_text interface = "off(line)" /\
    ~ In (admin_status_text interface) status_texts.
Proof.
  split; [reflexivity|]. split.
  - simpl. intros [H|[H|[H|[H|[]]]]]; discriminate H.
  - eexists. split; [reflexivity|]. split; [reflexivity|].
    simpl. intros [H|[H|[H|[H|[]]]]]; discriminate H.
Qed.

End Monitor.

(** *** Probing and discovery *)

Section Probing.
Import Py Env Discovery.

(** C6, as amended. [snmp_probe] returns [None] exactly when the
    description query yields no value or an empty one; a device it returns
    carries that description, the name "Device-<address>" when the name
    query yields nothing, and "Unknown" for a contact or a location that
    yields nothing; walks that cannot be performed leave the device without
    interfaces and do not make the probe fail. *)
Theorem snmp_probe_identity_fallbacks (w : world) (self : discovery) (ip : string) :
  let monitor := monitor_for self ip in
  (snmp_probe w self ip = None <->
   truthy (SimpleSnmp.snmp_get w monitor "1.3.6.1.2.1.1.1.0") = false) /\
  (forall device_info,
      snmp_probe w self ip = Some device_info ->
      SimpleSnmp.snmp_get w monitor "1.3.6.1.2.1.1.1.0"
      = Some (system_description device_info) /\
      (SimpleSnmp.snmp_get w monitor "1.3.6.1.2.1.1.5.0" = None ->
       system_name device_info = "Device-" ++ ip) /\
      (SimpleSnmp.snmp_get w monitor "1.3.6.1.2.1.1.4.0" = None ->
       system_contact device_info = "Unknown") /\
      (SimpleSnmp.snmp_get w monitor "1.3.6.1.2.1.1.6.0" = None ->
       system_location device_info = "Unknown")) /\
  (truthy (SimpleSnmp.snmp_get w monitor "1.3.6.1.2.1.1.1.0") = true ->
   (forall oid,
       SimpleSnmp.run_snmp_command w (SimpleSnmp.walk_command monitor oid) = None) ->
   exists device_info,
     snmp_probe w self ip = Some device_info /\ interfaces device_info = []).
Proof.
  intros monitor. unfold snmp_probe. fold monitor.
  destruct (SimpleSnmp.snmp_get w monitor "1.3.6.1.2.1.1.1.0") as [[|c desc]|] eqn:Hdesc;
    cbn [truthy negb].
  - split; [tauto|]. split; [intros d H; discriminate | intros H; discriminate].
  - split; [split; intros H; discriminate|].
    split.
    + intros d [= <-]. cbn [system_description system_name system_contact system_location].
      split; [reflexivity|].
      split; [|split]; intros ->; reflexivity.
    + intros _ Hwalks. eexists. split; [reflexivity|].
      cbn [interfaces]. unfold SimpleSnmp.get_interfaces.
      assert (Hnone : forall oid, SimpleSnmp.snmp_walk w monitor oid = []).
      { intros oid. unfold SimpleSnmp.snmp_walk. now rewrite Hwalks. }
      rewrite (Hnone (SimpleSnmp.oids "interface_desc")). reflexivity.
  - split; [tauto|]. split; [intros d H; discriminate | intros H; discriminate].
Qed.

Lemma snmp_probe_identity_fallbacks_witness :
  exists device_info,
    snmp_probe terse_device_world (sample_discovery []) "10.0.0.5" = Some device_info /\
    system_contact device_info = "Unknown" /\
    interfaces device_info = [].
Proof.
  pose proof (snmp_probe_identity_fallbacks terse_device_world (sample_discovery [])
                                            "10.0.0.5") as [_ [Hfields Hwalks]].
  destruct Hwalks as [device_info [Hprobe Hnone]]; [reflexivity | reflexivity |].
  exists device_info. split; [exact Hprobe|]. split; [|exact Hnone].
  apply (Hfields device_info Hprobe). reflexivity.
Defined.

(** Two inputs on which the probe differs from its description: an empty
    description is a value, yet the probe fails; and an uptime that yields
    nothing stays absent in the device instead of becoming "Unknown". *)
Lemma snmp_probe_empty_description_and_uptime :
  (SimpleSnmp.snmp_get blank_description_world (monitor_for (sample_discovery []) "10.0.0.5")
                       "1.3.6.1.2.1.1.1.0" = Some EmptyString /\
   snmp_probe blank_description_world (sample_discovery []) "10.0.0.5" = None) /\
  (SimpleSnmp.snmp_get terse_device_world (monitor_for (sample_discovery []) "10.0.0.5")
                       "1.3.6.1.2.1.1.3.0" = None /\
   exists device_info,
     snmp_probe terse_device_world (sample_discovery []) "10.0.0.5" = Some device_info /\
     system_uptime device_info = None /\
     system_uptime device_info <> Some "Unknown").
Proof.
  split; [split; reflexivity|].
  split; [reflexivity|].
  eexists. split; [reflexivity|]. split; [reflexivity | discriminate].
Qed.

(** C5, as amended. For a range that does not parse,
    [discover_network_range] returns the empty mapping, as a normal result;
    it dispatches no ping and no probe, and leaves the object, the registry
    of discovered devices included, as it was. *)
Theorem discover_network_range_malformed
        (w : world) (self : discovery) (network_range : string) (max_workers : Z) :
  network_hosts w network_range = None ->
  discover_network_range w self network_range max_workers = (Return [], self, []).
Proof.
  intros Hbad. unfold discover_network_range. now rewrite Hbad.
Qed.

Lemma discover_network_range_malformed_witness :
  discover_network_range unanswered_world
                         (sample_discovery [("10.0.0.5", sample_device "10.0.0.5")])
                         "not-a-range" 20
  = (Return [], sample_discovery [("10.0.0.5", sample_device "10.0.0.5")], []).
Proof.
  apply discover_network_range_malformed. reflexivity.
Defined.

(** A range that does not parse is not rejected: the call returns, and what
    it returns is what a well-formed range without any responsive address
    returns. *)
Lemma discover_network_range_not_rejected :
  network_hosts unanswered_world "not-a-range" = None /\
  (forall e,
      fst (fst (discover_network_range unanswered_world (sample_discovery [])
                                       "not-a-range" 20)) <> Raise e) /\
  network_hosts unanswered_world "192.0.2.0/30" = Some ["192.0.2.1"; "192.0.2.2"] /\
  fst (fst (discover_network_range unanswered_world (sample_discovery [])
                                   "not-a-range" 20))
  = fst (fst (discover_network_range unanswered_world (sample_discovery [])
                                     "192.0.2.0/30" 20)).
Proof.
  split; [reflexivity|]. split; [intros e; discriminate|].
  split; reflexivity.
Qed.

End Probing.

(** ** Further properties of the code *)

(** *** Dictionaries *)

Section DictLaws.
Import Py.
Context {V : Type}.


Lemma set_absent (d : dict V) k v : ~ In k (keys d) -> set d k v = (d ++ [(k, v)])%list.
Proof.
  induction d as [|[k' v'] d IH]; simpl; intros Hnot; [reflexivity|].
  destruct (String.eqb_spec k k') as [->|Hne]; [tauto|].
  f_equal. apply IH. tauto.
Qed.

Lemma keys_set_present (d : dict V) k v : In k (keys d) -> keys (set d k v) = keys d.
Proof.
  induction d as [|[k' v'] d IH]; simpl; intros Hin; [destruct Hin|].
  destruct (String.eqb_spec k k') as [->|Hne]; [reflexivity|].
  simpl. f_equal. apply IH. destruct Hin as [Heq|Hin]; [congruence | exact Hin].
Qed.

Lemma nodup_keys_set (d : dict V) k v : NoDup (keys d) -> NoDup (keys (set d k v)).
Proof.
  intros Hnd. destruct (in_dec string_dec k (keys d)) as [Hin|Hnot].
  - now rewrite keys_set_present.
  - rewrite set_absent by exact Hnot. unfold keys. rewrite map_app. simpl.
    apply NoDup_app; [exact Hnd | repeat constructor; intros [] |].
    intros x Hx [<-|[]]. contradiction.
Qed.


Lemma in_entry_get (d : dict V) k v : NoDup (keys d) -> In (k, v) d -> get d k = Some v.
Proof.
  induction d as [|[k' v'] d IH]; simpl; intros Hnd Hin; [destruct Hin|].
  inversion Hnd as [|? ? Hnotin Hrest]; subst.
  destruct Hin as [[= -> ->]|Hin].
  - now rewrite String.eqb_refl.
  - destruct (String.eqb_spec k k') as [->|Hne]; [|now apply IH].
    exfalso. apply Hnotin. apply (in_map fst) in Hin. exact Hin.
Qed.

Lemma get_in_entry (d : dict V) k v : get d k = Some v -> In (k, v) d.
Proof.
  induction d as [|[k' v'] d IH]; simpl; [discriminate|].
  destruct (String.eqb_spec k k') as [->|Hne].
  - intros [= ->]. now left.
  - intros H. right. now apply IH.
Qed.






Lemma get_collect (f : string -> option V) items acc k :
  get (fold_left (collect f) items acc) k
  = match f k with
    | Some v => if in_dec string_dec k items then Some v else get acc k
    | None => get acc k
    end.
Proof.
  revert acc.
  induction items as [|k' items IH]; intros acc; simpl.
  - destruct (f k); reflexivity.
  - rewrite IH. unfold collect.
    destruct (string_dec k' k) as [->|Hne].
    + destruct (f k) as [v|] eqn:Ek; [|reflexivity].
      destruct (in_dec string_dec k items); [reflexivity | apply get_set_same].
    + destruct (f k) as [v|] eqn:Ek.
      * destruct (in_dec string_dec k items); [reflexivity|].
        destruct (f k'); [apply get_set_other; congruence | reflexivity].
      * destruct (f k'); [apply get_set_other; congruence | reflexivity].
Qed.

Lemma nodup_keys_collect (f : string -> option V) items acc :
  NoDup (keys acc) -> NoDup (keys (fold_left (collect f) items acc)).
Proof.
  revert acc.
  induction items as [|k items IH]; intros acc Hnd; simpl; [exact Hnd|].
  apply IH. unfold collect. destruct (f k); [now apply nodup_keys_set | exact Hnd].
Qed.

End DictLaws.

(** *** Range discovery *)

Section RangeDiscovery.
Import Py Env Discovery.

Lemma fold_left_pointwise {A B} (f g : A -> B -> A) items acc :
  (forall a b, f a b = g a b) -> fold_left f items acc = fold_left g items acc.
Proof.
  intros Hfg. revert acc.
  induction items as [|b items IH]; intros acc; simpl; [reflexivity|].
  now rewrite Hfg, IH.
Qed.

Lemma as_completed_in (w : world) (futures : list string) ip :
  In ip (as_completed w futures) <-> In ip futures.
Proof.
  split; apply Permutation_in;
    [apply Permutation_sym|]; apply (as_completed_perm w).
Qed.

Lemma as_completed_nil (w : world) : as_completed w [] = [].
Proof. apply Permutation_nil. apply (as_completed_perm w). Qed.

(** The two phases, written as two collecting loops. *)
Lemma discover_network_range_phases (w : world) (self : discovery)
      (network_range : string) (max_workers : Z) (hosts : list string) :
  network_hosts w network_range = Some hosts ->
  (0 < max_workers)%Z ->
  let ping_results :=
    fold_left (collect (fun ip => if ping_host w ip then Some true else None))
              (as_completed w hosts) [] in
  let discovered :=
    fold_left (collect (snmp_probe w self)) (as_completed w (keys ping_results)) [] in
  discover_network_range w self network_range max_workers
  = (Return discovered,
     with_devices self (update (discovered_devices self) discovered),
     (map Pinged hosts ++ map Probed (keys ping_results))%list).
Proof.
  intros Hhosts Hworkers ping_results discovered.
  unfold discover_network_range. rewrite Hhosts.
  destruct (max_workers <=? 0)%Z eqn:E; [apply Z.leb_le in E; lia|].
  rewrite (fold_left_pointwise
             (fun acc ip => if ping_host w ip then set acc ip true else acc)
             (collect (fun ip => if ping_host w ip then Some true else None)))
    by (intros a b; unfold collect; now destruct (ping_host w b)).
  fold ping_results.
  change (fun (acc : dict device) (ip : string) =>
            match snmp_probe w self ip with
            | Some device_info => set acc ip device_info
            | None => acc
            end) with (collect (snmp_probe w self)).
  fold discovered.
  destruct ping_results as [|entry rest] eqn:Eping; [|reflexivity].
  subst discovered. simpl keys. now rewrite as_completed_nil.
Qed.

Lemma reachable_keys (w : world) (hosts : list string) ip :
  In ip (keys (fold_left (collect (fun ip => if ping_host w ip then Some true else None))
                         (as_completed w hosts) []))
  <-> In ip hosts /\ ping_host w ip = true.
Proof.
  rewrite in_keys_get, get_collect.
  destruct (ping_host w ip).
  - destruct (in_dec string_dec ip (as_completed w hosts)) as [Hin|Hnot].
    + apply as_completed_in in Hin. split; [tauto | intros _; now exists true].
    + rewrite as_completed_in in Hnot. simpl.
      split; [intros [v Hv]; discriminate | tauto].
  - simpl. split; [intros [v Hv]; discriminate | intros [_ H]; discriminate].
Qed.

(** X1. A discovery over a well-formed range returns exactly the addresses
    of the range that answer the ping and the probe, each with the device
    its probe returned; every address of the range is pinged, and the probe
    is sent to the addresses that answered the ping and to no other. *)
Theorem discover_network_range_exact
        (w : world) (self : discovery) (network_range : string) (max_workers : Z)
        (hosts : list string) :
  network_hosts w network_range = Some hosts ->
  (0 < max_workers)%Z ->
  exists discovered self' trace,
    discover_network_range w self network_range max_workers
    = (Return discovered, self', trace) /\
    NoDup (keys discovered) /\
    (forall ip device_info,
        get discovered ip = Some device_info <->
        In ip hosts /\ ping_host w ip = true /\ snmp_probe w self ip = Some device_info) /\
    (forall ip, In (Pinged ip) trace <-> In ip hosts) /\
    (forall ip, In (Probed ip) trace <-> In ip hosts /\ ping_host w ip = true).
Proof.
  intros Hhosts Hworkers.
  pose proof (discover_network_range_phases w self network_range max_workers hosts
                                            Hhosts Hworkers) as Hrun.
  cbv zeta in Hrun.
  eexists _, _, _. split; [exact Hrun|].
  split; [apply nodup_keys_collect; constructor|].
  split; [|split].
  - intros ip device_info. rewrite get_collect.
    destruct (snmp_probe w self ip) as [d|].
    + destruct (in_dec string_dec ip _) as [Hin|Hnot].
      * apply as_completed_in, reachable_keys in Hin.
        split; [intros [= <-]; tauto | intros [_ [_ [= <-]]]; reflexivity].
      * rewrite as_completed_in, reachable_keys in Hnot. simpl.
        split; [discriminate | tauto].
    + simpl. split; [discriminate | intros [_ [_ H]]; discriminate].
  - intros ip. rewrite in_app_iff, !in_map_iff. split.
    + intros [[x [[= ->] Hin]]|[x [Heq _]]]; [exact Hin | discriminate].
    + intros Hin. left. now exists ip.
  - intros ip. rewrite in_app_iff, !in_map_iff. split.
    + intros [[x [Heq _]]|[x [[= ->] Hin]]]; [discriminate|].
      now apply reachable_keys.
    + intros Hin. right. exists ip. split; [reflexivity|]. now apply reachable_keys.
Qed.

Lemma discover_network_range_exact_witness :
  exists discovered self' trace,
    discover_network_range local_world (sample_discovery []) "127.0.0.1/32" 20
    = (Return discovered, self', trace) /\
    get discovered "127.0.0.1" = snmp_probe local_world (sample_discovery []) "127.0.0.1" /\
    (forall ip, In (Probed ip) trace <-> In ip ["127.0.0.1"] /\ ping_host local_world ip = true).
Proof.
  destruct (discover_network_range_exact local_world (sample_discovery [])
              "127.0.0.1/32" 20 ["127.0.0.1"])
    as [discovered [self' [trace [Hrun [_ [Hfound [_ Hprobed]]]]]]].
  - reflexivity.
  - reflexivity.
  - exists discovered, self', trace. split; [exact Hrun|]. split; [|exact Hprobed].
    destruct (snmp_probe local_world (sample_discovery []) "127.0.0.1") as [d|] eqn:E.
    + apply Hfound. repeat split; [now left | exact E].
    + discriminate E.
Defined.



End RangeDiscovery.

(** *** Local discovery *)

Section LocalDiscovery.
Import Py Env Discovery.

Lemma with_devices_same (self : discovery) :
  with_devices self (discovered_devices self) = self.
Proof. now destruct self. Qed.

(** X3. [discover_localhost] is the range discovery of the single address
    127.0.0.1 without the ping: when that address answers the ping both
    return the same mapping and leave the same object behind; when it does
    not, the range discovery finds nothing and changes nothing, whatever the
    probe would have said. *)
Theorem discover_localhost_as_range
        (w : world) (self : discovery) (network_range : string) (max_workers : Z) :
  network_hosts w network_range = Some ["127.0.0.1"] ->
  (0 < max_workers)%Z ->
  (ping_host w "127.0.0.1" = true ->
   discover_network_range w self network_range max_workers
   = (Return (fst (discover_localhost w self)), snd (discover_localhost w self),
      [Pinged "127.0.0.1"; Probed "127.0.0.1"])) /\
  (ping_host w "127.0.0.1" = false ->
   discover_network_range w self network_range max_workers
   = (Return [], self, [Pinged "127.0.0.1"])).
Proof.
  intros Hhosts Hworkers.
  rewrite (discover_network_range_phases w self network_range max_workers
                                         ["127.0.0.1"] Hhosts Hworkers).
  cbv zeta.
  assert (Hone : as_completed w ["127.0.0.1"] = ["127.0.0.1"]).
  { apply Permutation_length_1_inv. apply (as_completed_perm w). }
  rewrite Hone. cbn [fold_left].
  assert (Hpinged :
            collect (fun ip => if ping_host w ip then Some true else None) [] "127.0.0.1"
            = if ping_host w "127.0.0.1" then [("127.0.0.1", true)] else []).
  { unfold collect. now destruct (ping_host w "127.0.0.1"). }
  rewrite Hpinged.
  split; intros Hping; rewrite Hping; cbn [keys map fst app].
  - rewrite Hone. cbn [fold_left]. unfold collect, discover_localhost.
    destruct (snmp_probe w self "127.0.0.1") as [device_info|]; cbn [fst snd set].
    + reflexivity.
    + unfold update. cbn [fold_left]. now rewrite with_devices_same.
  - rewrite as_completed_nil. cbn [fold_left]. unfold update. cbn [fold_left].
    now rewrite with_devices_same.
Qed.

Lemma discover_localhost_as_range_witness :
  discover_network_range local_world (sample_discovery []) "127.0.0.1/32" 20
  = (Return (fst (discover_localhost local_world (sample_discovery []))),
     snd (discover_localhost local_world (sample_discovery [])),
     [Pinged "127.0.0.1"; Probed "127.0.0.1"]).
Proof.
  apply (discover_localhost_as_range local_world (sample_discovery []) "127.0.0.1/32" 20);
    reflexivity.
Defined.

End LocalDiscovery.

(** *** Links of the topology *)

Section TopologyLinks.
Import Py Env Discovery.

Lemma for_each_invariant {A B} (P : B -> Prop) (body : B -> A -> outcome B) items :
  (forall acc item acc', In item items -> P acc -> body acc item = Return acc' -> P acc') ->
  forall acc result, P acc -> for_each body items acc = Return result -> P result.
Proof.
  induction items as [|item rest IH]; intros Hbody acc result Hacc; simpl.
  - now intros [= <-].
  - destruct (body acc item) as [acc'|e] eqn:E; [|discriminate].
    apply IH.
    + intros acc0 item0 acc0' Hin. apply Hbody. now right.
    + apply (Hbody acc item acc'); [now left | exact Hacc | exact E].
Qed.

Lemma fold_left_invariant {A B} (P : B -> Prop) (body : B -> A -> B) items :
  (forall acc item, In item items -> P acc -> P (body acc item)) ->
  forall acc, P acc -> P (fold_left body items acc).
Proof.
  induction items as [|item rest IH]; intros Hbody acc Hacc; simpl; [exact Hacc|].
  apply IH.
  - intros acc0 item0 Hin. apply Hbody. now right.
  - apply Hbody; [now left | exact Hacc].
Qed.

Lemma in_enumerate {A} (items : list A) i item :
  In (i, item) (enumerate items) -> nth_error items i = Some item.
Proof.
  unfold enumerate.
  assert (Hgen : forall start,
             In (i, item) (combine (seq start (List.length items)) items) ->
             (start <= i)%nat /\ nth_error items (i - start) = Some item).
  { induction items as [|x rest IH]; intros start; simpl; [intros []|].
    intros [[= <- <-]|Hin].
    - rewrite Nat.sub_diag. split; [lia | reflexivity].
    - apply IH in Hin. destruct Hin as [Hle Hnth].
      split; [lia|].
      replace (i - start)%nat with (S (i - S start)) by lia. exact Hnth. }
  intros Hin. apply Hgen in Hin. destruct Hin as [_ Hnth].
  now rewrite Nat.sub_0_r in Hnth.
Qed.

Lemma in_enumerate_item {A} (items : list A) i item :
  In (i, item) (enumerate items) -> In item items.
Proof. intros Hin. apply in_enumerate in Hin. now apply nth_error_In in Hin. Qed.

(** An endpoint condition on links that is kept by appending good links. *)
Lemma detect_links_invariant (P : link -> Prop) (self : discovery) (links result : list link) :
  (forall ip1 dev1 ip2 dev2 i j,
      nth_error (filter (fun entry => mem (device_type (snd entry))
                                          ["switch"; "virtual_switch"])
                        (discovered_devices self)) i = Some (ip1, dev1) ->
      nth_error (filter (fun entry => mem (device_type (snd entry))
                                          ["switch"; "virtual_switch"])
                        (discovered_devices self)) j = Some (ip2, dev2) ->
      (i < j)%nat ->
      P (switch_link ip1 ip2)) ->
  (forall host_ip host_dev switch_ip switch_dev,
      In (host_ip, host_dev) (discovered_devices self) ->
      device_type host_dev = "host" ->
      In (switch_ip, switch_dev) (discovered_devices self) ->
      mem (device_type switch_dev) ["switch"; "virtual_switch"] = true ->
      same_subnet host_ip switch_ip = true ->
      P (subnet_link host_ip switch_ip)) ->
  Forall P links ->
  detect_links self links = Return result ->
  Forall P result.
Proof.
  intros Hswitch Hhost Hlinks. unfold detect_links.
  set (switch_devices := filter _ (discovered_devices self)).
  set (host_devices := filter (fun entry => String.eqb (device_type (snd entry)) "host")
                              (discovered_devices self)).
  destruct (for_each _ (enumerate switch_devices) links) as [linked|e] eqn:Eswitches;
    [|discriminate].
  cbn [bind]. intros [= <-].
  apply fold_left_invariant.
  - intros acc [host_ip host_dev] Hin Hacc. cbn [fst].
    destruct (find _ switch_devices) as [[switch_ip switch_dev]|] eqn:Efind; [|exact Hacc].
    apply Forall_app. split; [exact Hacc|]. constructor; [|constructor].
    apply find_some in Efind. destruct Efind as [Hsw Hsame].
    apply filter_In in Hin. destruct Hin as [Hhin Hhty].
    apply filter_In in Hsw. destruct Hsw as [Hsin Hsty].
    apply (Hhost host_ip host_dev switch_ip switch_dev); try assumption.
    now apply String.eqb_eq in Hhty.
  - revert Eswitches. apply for_each_invariant; [|exact Hlinks].
    intros acc [i [ip1 dev1]] acc' Hfirst Hacc.
    apply for_each_invariant; [|exact Hacc].
    intros acc0 [j [ip2 dev2]] acc0' Hsecond Hacc0. cbn [fst snd].
    destruct (i <? j)%nat eqn:Elt; [|now intros [= <-]].
    destruct (have_interconnect dev1 dev2) as [[|]|e]; cbn [bind];
      [| now intros [= <-] | discriminate].
    intros [= <-]. apply Forall_app. split; [exact Hacc0|].
    constructor; [|constructor].
    apply (Hswitch ip1 dev1 ip2 dev2 i j);
      [now apply in_enumerate | now apply in_enumerate | now apply Nat.ltb_lt].
Qed.

(** The two ways [build_topology] returns. *)
Lemma build_topology_cases (self : discovery) (graph : topology_graph) (self' : discovery) :
  build_topology self = (Return graph, self') ->
  self' = with_topology self graph /\
  ((nodes graph
    = map (fun entry => node_of_device (fst entry) (snd entry)) (discovered_devices self)
    /\ detect_links self [] = Return (links graph))
   \/
   (exists localhost_device port ports,
       discovered_devices self = [("127.0.0.1", localhost_device)] /\
       filter is_mininet_interface (values (interfaces localhost_device)) = port :: ports /\
       nodes graph
       = filter not_localhost
           (filter not_localhost
              ((map (fun entry => node_of_device (fst entry) (snd entry))
                    (discovered_devices self)
                ++ [switch_node localhost_device (port :: ports)])
               ++ map (fun entry => host_node (fst entry) (snd entry))
                      (enumerate (port :: ports))))%list /\
       links graph
       = map (fun entry => host_link (fst entry) (snd entry)) (enumerate (port :: ports)))).
Proof.
  unfold build_topology.
  destruct ((List.length (discovered_devices self) =? 1)%nat
            && has_key (discovered_devices self) "127.0.0.1") eqn:Econd.
  - apply andb_prop in Econd. destruct Econd as [Hlen Hkey].
    apply Nat.eqb_eq in Hlen. unfold has_key in Hkey.
    destruct (get (discovered_devices self) "127.0.0.1") as [localhost_device|] eqn:Eget;
      [|discriminate].
    assert (Hreg : discovered_devices self = [("127.0.0.1", localhost_device)]).
    { destruct (discovered_devices self) as [|[k d] [|]]; try discriminate Hlen.
      cbn [get] in Eget. destruct (String.eqb_spec "127.0.0.1" k) as [<-|]; [|discriminate].
      now injection Eget as ->. }
    destruct (filter is_mininet_interface (values (interfaces localhost_device)))
      as [|port ports] eqn:Eports.
    + cbn [fst snd app].
      destruct (detect_links self []) as [links|e]; [|discriminate].
      intros [= <- <-]. split; [reflexivity|]. left. now split.
    + cbn [fst snd app]. intros [= <- <-]. split; [reflexivity|]. right.
      exists localhost_device, port, ports.
      split; [exact Hreg|]. split; [exact Eports|]. now split.
  - cbn [fst snd].
    destruct (detect_links self []) as [links|e]; [|discriminate].
    intros [= <- <-]. split; [reflexivity|]. left. now split.
Qed.

Lemma node_ids_of_devices (devices : dict device) :
  map node_id (map (fun entry => node_of_device (fst entry) (snd entry)) devices)
  = keys devices.
Proof. unfold keys. rewrite map_map. apply map_ext. now intros [ip dev]. Qed.

Lemma host_id_not_localhost i : String.eqb (host_id i) "127.0.0.1" = false.
Proof. reflexivity. Qed.

Lemma host_id_not_switch i : host_id i <> "s1".
Proof. unfold host_id. simpl. discriminate. Qed.

Lemma nodup_keys_filter {V} (p : string * V -> bool) (d : dict V) :
  NoDup (keys d) -> NoDup (keys (filter p d)).
Proof.
  induction d as [|[k v] d IH]; simpl; intros Hnd; [constructor|].
  inversion Hnd as [|? ? Hnotin Hrest]; subst.
  destruct (p (k, v)); [|now apply IH].
  simpl. constructor; [|now apply IH].
  intros Hin. apply Hnotin. unfold keys in *. apply in_map_iff in Hin.
  destruct Hin as [[k' v'] [Hk Hin]]. apply filter_In in Hin.
  apply in_map_iff. exists (k', v'). tauto.
Qed.

(** X4. In every graph [build_topology] returns, both ends of every link
    are ids of nodes of that graph. *)
Theorem build_topology_links_reference_nodes
        (self : discovery) (graph : topology_graph) (self' : discovery) :
  build_topology self = (Return graph, self') ->
  Forall (fun l => In (source l) (map node_id (nodes graph))
                   /\ In (target l) (map node_id (nodes graph)))
         (links graph).
Proof.
  intros Hbuild. apply build_topology_cases in Hbuild.
  destruct Hbuild as [_ [[Hnodes Hlinks]|[localhost_device [port [ports Hexp]]]]].
  - rewrite Hnodes, node_ids_of_devices.
    revert Hlinks. apply detect_links_invariant; [| |constructor].
    + intros ip1 dev1 ip2 dev2 i j H1 H2 _. cbn [switch_link source target].
      apply nth_error_In, filter_In in H1. apply nth_error_In, filter_In in H2.
      split; [apply (in_map fst _ (ip1, dev1)) | apply (in_map fst _ (ip2, dev2))]; tauto.
    + intros host_ip host_dev switch_ip switch_dev Hh _ Hs _ _.
      cbn [subnet_link source target].
      split; [apply (in_map fst _ (host_ip, host_dev))
             | apply (in_map fst _ (switch_ip, switch_dev))]; assumption.
  - destruct Hexp as [_ [_ [Hnodes Hlinks]]]. rewrite Hnodes, Hlinks.
    apply Forall_forall. intros l Hl. apply in_map_iff in Hl.
    destruct Hl as [[i iface] [<- Hin]]. cbn [fst snd host_link source target].
    split.
    + apply in_map_iff. exists (host_node i iface). split; [reflexivity|].
      apply filter_In. split; [apply filter_In; split|].
      * apply in_or_app. right. apply in_map_iff. now exists (i, iface).
      * unfold not_localhost. cbn [host_node node_id]. now rewrite host_id_not_localhost.
      * unfold not_localhost. cbn [host_node node_id]. now rewrite host_id_not_localhost.
    + apply in_map_iff. exists (switch_node localhost_device (port :: ports)).
      split; [reflexivity|].
      apply filter_In. split; [apply filter_In; split|]; try reflexivity.
      apply in_or_app. left. apply in_or_app. right. now left.
Qed.

Lemma build_topology_links_reference_nodes_witness :
  Forall (fun l => In (source l) ["s1"; "h1"; "h2"; "h3"]
                   /\ In (target l) ["s1"; "h1"; "h2"; "h3"])
         [host_link 0 (sample_port "s1-eth1" "up" (VInt 100));
          host_link 1 (sample_port "s1-eth2" "down" (VInt 0));
          host_link 2 (sample_port "s1-eth3" "up" (VInt 7))].
Proof.
  exact (build_topology_links_reference_nodes
           (sample_discovery [("127.0.0.1", sample_device "127.0.0.1")]) _ _ eq_refl).
Defined.

(** X5. When the registry has no repeated address, no link of a graph
    [build_topology] returns joins a node to itself. *)
Theorem build_topology_no_self_link
        (self : discovery) (graph : topology_graph) (self' : discovery) :
  NoDup (keys (discovered_devices self)) ->
  build_topology self = (Return graph, self') ->
  Forall (fun l => source l <> target l) (links graph).
Proof.
  intros Hnd Hbuild. apply build_topology_cases in Hbuild.
  destruct Hbuild as [_ [[_ Hlinks]|[localhost_device [port [ports Hexp]]]]].
  - revert Hlinks. apply detect_links_invariant; [| |constructor].
    + intros ip1 dev1 ip2 dev2 i j H1 H2 Hlt. cbn [switch_link source target].
      intros <-.
      pose proof (nodup_keys_filter
                    (fun entry => mem (device_type (snd entry)) ["switch"; "virtual_switch"])
                    _ Hnd) as Hnd'.
      unfold keys in Hnd'. rewrite NoDup_nth_error in Hnd'.
      assert (Hij : i = j).
      { apply Hnd'.
        - rewrite length_map. apply nth_error_Some. congruence.
        - rewrite !nth_error_map, H1, H2. reflexivity. }
      lia.
    + intros host_ip host_dev switch_ip switch_dev Hh Hhost Hs Hswitch _.
      cbn [subnet_link source target]. intros <-.
      apply (in_entry_get _ _ _ Hnd) in Hh. apply (in_entry_get _ _ _ Hnd) in Hs.
      assert (host_dev = switch_dev) by congruence. subst switch_dev.
      rewrite Hhost in Hswitch. discriminate.
  - destruct Hexp as [_ [_ [_ Hlinks]]]. rewrite Hlinks.
    apply Forall_forall. intros l Hl. apply in_map_iff in Hl.
    destruct Hl as [[i iface] [<- _]]. cbn [fst snd host_link source target].
    apply host_id_not_switch.
Qed.

Lemma build_topology_no_self_link_witness :
  Forall (fun l => source l <> target l)
         [switch_link "10.0.0.1" "10.0.0.2"; subnet_link "10.0.0.9" "10.0.0.1"].
Proof.
  refine (build_topology_no_self_link sample_campus _ _ _ eq_refl).
  repeat constructor; simpl; intuition discriminate.
Defined.

Lemma detect_links_single_device (self : discovery) (address : string) (single : device) :
  discovered_devices self = [(address, single)] ->
  detect_links self [] = Return [].
Proof.
  intros Hreg. unfold detect_links. rewrite Hreg. cbn [filter snd].
  destruct (mem (device_type single) ["switch"; "virtual_switch"]) eqn:Esw;
    destruct (String.eqb (device_type single) "host") eqn:Ehost;
    try reflexivity.
  apply String.eqb_eq in Ehost. rewrite Ehost in Esw. discriminate.
Qed.

Lemma build_topology_plain (self : discovery) (address : string) (single : device) :
  discovered_devices self = [(address, single)] ->
  (if String.eqb "127.0.0.1" address
   then filter is_mininet_interface (values (interfaces single))
   else []) = [] ->
  build_topology self
  = (Return {| nodes := [node_of_device address single]; links := [] |},
     with_topology self {| nodes := [node_of_device address single]; links := [] |}).
Proof.
  intros Hreg Hplain.
  pose proof (detect_links_single_device self address single Hreg) as Hdetect.
  unfold build_topology. rewrite Hreg. unfold has_key.
  cbn [List.length Nat.eqb andb map fst snd get].
  destruct (String.eqb "127.0.0.1" address);
    [rewrite Hplain|]; cbn [fst snd]; now rewrite Hdetect.
Qed.

(** X6. A registry with a single device that is not the local machine, or
    that has no switch-port interface, gives the graph of that one device:
    its node and no link; the call cannot raise. *)
Theorem build_topology_single_device
        (self : discovery) (address : string) (single : device) :
  discovered_devices self = [(address, single)] ->
  address <> "127.0.0.1"
  \/ filter is_mininet_interface (values (interfaces single)) = [] ->
  build_topology self
  = (Return {| nodes := [node_of_device address single]; links := [] |},
     with_topology self {| nodes := [node_of_device address single]; links := [] |}).
Proof.
  intros Hreg Hplain.
  apply build_topology_plain; [exact Hreg|].
  destruct (String.eqb_spec "127.0.0.1" address) as [<-|Hne]; [|reflexivity].
  destruct Hplain as [Hne|Hnone]; [congruence | exact Hnone].
Qed.

Lemma build_topology_single_device_witness :
  fst (build_topology (sample_discovery [("10.0.0.5", sample_device "10.0.0.5")]))
  = Return {| nodes := [node_of_device "10.0.0.5" (sample_device "10.0.0.5")];
              links := [] |}.
Proof.
  rewrite (build_topology_single_device
             (sample_discovery [("10.0.0.5", sample_device "10.0.0.5")])
             "10.0.0.5" (sample_device "10.0.0.5")).
  - reflexivity.
  - reflexivity.
  - left. discriminate.
Defined.

(** X7. Every link [detect_links] adds joins two devices of the registry:
    a switch link joins two switches (type switch or virtual_switch), a host
    link goes from a device of type host to a switch with the same first
    three address fields. A router, firewall, access point or unknown device
    is never an end of a link, and no link ends at a host. *)
Theorem detect_links_typed (self : discovery) (links : list link) :
  detect_links self [] = Return links ->
  Forall (typed_link (discovered_devices self)) links.
Proof.
  apply detect_links_invariant; [| |constructor].
  - intros ip1 dev1 ip2 dev2 i j H1 H2 _.
    apply nth_error_In, filter_In in H1. apply nth_error_In, filter_In in H2.
    exists dev1, dev2. cbn [switch_link source target link_type].
    unfold is_switch_device. cbn [snd] in H1, H2. tauto.
  - intros host_ip host_dev switch_ip switch_dev Hh Hhost Hs Hswitch Hsame.
    exists host_dev, switch_dev. cbn [subnet_link source target link_type].
    unfold is_switch_device. tauto.
Qed.

Lemma detect_links_typed_witness :
  Forall (typed_link (discovered_devices sample_campus))
         [switch_link "10.0.0.1" "10.0.0.2"; subnet_link "10.0.0.9" "10.0.0.1"].
Proof.
  exact (detect_links_typed sample_campus _ eq_refl).
Defined.

Lemma host_links_from_app address (links more : list link) :
  List.length (filter (host_link_from address) (links ++ more))
  = (List.length (filter (host_link_from address) links)
     + List.length (filter (host_link_from address) more))%nat.
Proof. now rewrite filter_app, length_app. Qed.

(** The first loop of [detect_links] adds switch links only. *)
Lemma switch_phase_adds_no_host_link (switch_devices : dict device) links result address :
  for_each
    (fun links first =>
       for_each
         (fun links second =>
            if (fst first <? fst second)%nat then
              linked <- have_interconnect (snd (snd first)) (snd (snd second)) ;;
              Return (if linked
                      then links ++ [switch_link (fst (snd first)) (fst (snd second))]
                      else links)%list
            else Return links)
         (enumerate switch_devices) links)
    (enumerate switch_devices) links = Return result ->
  List.length (filter (host_link_from address) result)
  = List.length (filter (host_link_from address) links).
Proof.
  apply (for_each_invariant
           (fun acc => List.length (filter (host_link_from address) acc)
                       = List.length (filter (host_link_from address) links)));
    [|reflexivity].
  intros acc first acc' _ Hacc.
  apply (for_each_invariant
           (fun acc => List.length (filter (host_link_from address) acc)
                       = List.length (filter (host_link_from address) links)));
    [|exact Hacc].
  intros acc0 second acc0' _ Hacc0.
  destruct (fst first <? fst second)%nat; [|now intros [= <-]].
  destruct (have_interconnect _ _) as [[|]|e]; cbn [bind];
    [| now intros [= <-] | discriminate].
  intros [= <-]. rewrite host_links_from_app, Hacc0. cbn. lia.
Qed.

(** The second loop adds at most one host link for each host. *)
Lemma host_phase_one_link_each (switch_devices host_devices : dict device) links address :
  NoDup (keys host_devices) ->
  (forall ip, In ip (keys host_devices) ->
              List.length (filter (host_link_from ip) links) = 0%nat) ->
  (List.length (filter (host_link_from address) links) <= 1)%nat ->
  (List.length
     (filter (host_link_from address)
        (fold_left
           (fun links host =>
              match find (fun switch => same_subnet (fst host) (fst switch))
                         switch_devices with
              | Some switch => links ++ [subnet_link (fst host) (fst switch)]
              | None => links
              end)%list
           host_devices links)) <= 1)%nat.
Proof.
  revert links.
  induction host_devices as [|[host_ip host_dev] rest IH]; intros links Hnd Hzero Hone;
    cbn [fold_left]; [exact Hone|].
  inversion Hnd as [|? ? Hnotin Hrest]; subst. cbn [fst].
  assert (Hstep : forall ip switch_ip,
             List.length (filter (host_link_from ip)
                                 (links ++ [subnet_link host_ip switch_ip]))
             = (List.length (filter (host_link_from ip) links)
                + if String.eqb host_ip ip then 1 else 0)%nat).
  { intros ip switch_ip. rewrite host_links_from_app. f_equal.
    unfold host_link_from. cbn. now destruct (String.eqb host_ip ip). }
  apply IH; [exact Hrest | |].
  - intros ip Hin.
    destruct (find _ switch_devices) as [[switch_ip switch_dev]|];
      [|apply Hzero; now right].
    cbn [fst]. rewrite Hstep, (Hzero ip) by now right.
    destruct (String.eqb_spec host_ip ip) as [->|]; [contradiction | reflexivity].
  - destruct (find _ switch_devices) as [[switch_ip switch_dev]|]; [|exact Hone].
    cbn [fst]. rewrite Hstep.
    destruct (String.eqb_spec host_ip address) as [->|]; [|lia].
    rewrite (Hzero address) by now left. lia.
Qed.

(** X8. When the registry has no repeated address, [detect_links] gives
    every address at most one host link: a host is linked to one switch, the
    first of its subnet, and to no other. *)
Theorem detect_links_one_switch_per_host
        (self : discovery) (links : list link) (address : string) :
  NoDup (keys (discovered_devices self)) ->
  detect_links self [] = Return links ->
  (List.length (filter (host_link_from address) links) <= 1)%nat.
Proof.
  intros Hnd. unfold detect_links.
  destruct (for_each _ (enumerate _) []) as [linked|e] eqn:Eswitches; [|discriminate].
  cbn [bind]. intros [= <-].
  assert (Hnone : forall ip, List.length (filter (host_link_from ip) linked) = 0%nat).
  { intros ip.
    now rewrite (switch_phase_adds_no_host_link _ _ _ ip Eswitches). }
  apply host_phase_one_link_each.
  - now apply nodup_keys_filter.
  - intros ip _. apply Hnone.
  - rewrite Hnone. lia.
Qed.

Lemma detect_links_one_switch_per_host_witness :
  (List.length
     (filter (host_link_from "10.0.0.9")
             [switch_link "10.0.0.1" "10.0.0.2"; subnet_link "10.0.0.9" "10.0.0.1"])
   <= 1)%nat.
Proof.
  refine (detect_links_one_switch_per_host sample_campus _ "10.0.0.9" _ eq_refl).
  repeat constructor; simpl; intuition discriminate.
Defined.

End TopologyLinks.

(** *** Tables read from a device *)

Section Tables.
Import Py Env SimpleSnmp.

Lemma span_digits_index s :
  all_digits (fst (span_digits s)) = true.
Proof.
  induction s as [|c s IH]; simpl; [reflexivity|].
  destruct (is_digit c) eqn:E; [|reflexivity].
  destruct (span_digits s) as [ds r]. simpl in *. now rewrite E.
Qed.

Lemma match_walk_at_index s index group :
  match_walk_at s = Some (index, group) ->
  index <> EmptyString /\ all_digits index = true.
Proof.
  unfold match_walk_at.
  destruct s as [|c rest]; [discriminate|].
  destruct (Ascii.eqb_spec c "."%char) as [->|Hne].
  - pose proof (span_digits_index rest) as Hdigits.
    destruct (span_digits rest) as [[|d ds] rest']; [discriminate|].
    destruct (drop_prefix " = " rest') as [typed|]; [|discriminate].
    destruct (match_typed_value value_types typed); [|discriminate].
    intros [= <- <-]. split; [discriminate | exact Hdigits].
  - destruct c as [[] [] [] [] [] [] [] []]; try discriminate. now contradiction Hne.
Qed.

Lemma search_walk_index s index group :
  search_walk s = Some (index, group) ->
  index <> EmptyString /\ all_digits index = true.
Proof.
  induction s as [|c s IH].
  - discriminate.
  - change (search_walk (String c s))
      with (match match_walk_at (String c s) with
            | Some groups => Some groups
            | None => search_walk s
            end).
    destruct (match_walk_at (String c s)) as [[i g]|] eqn:E.
    + intros [= <- <-]. now apply (match_walk_at_index (String c s) i g).
    + exact IH.
Qed.

Lemma parse_walk_line_typed line index value :
  parse_walk_line line = Some (index, value) -> typed_entry index value.
Proof.
  unfold parse_walk_line.
  destruct (truthy (Some (strip line))); [|discriminate].
  destruct (search_walk line) as [[i group]|] eqn:E; [|discriminate].
  apply search_walk_index in E. destruct E as [Hne Hdigits].
  destruct (int (strip_char quote (strip group))) as [n|] eqn:Eint;
    intros [= <- <-]; repeat split; assumption.
Qed.

Lemma fold_walk_line_typed lines results :
  NoDup (keys results) ->
  (forall index value, get results index = Some value -> typed_entry index value) ->
  NoDup (keys (fold_left walk_line lines results)) /\
  (forall index value,
      get (fold_left walk_line lines results) index = Some value ->
      typed_entry index value).
Proof.
  revert results.
  induction lines as [|line rest IH]; intros results Hnd Hall; simpl; [now split|].
  apply IH; unfold walk_line;
    destruct (parse_walk_line line) as [[i v]|] eqn:E; try assumption.
  - now apply nodup_keys_set.
  - intros index value. rewrite get_set.
    destruct (String.eqb_spec index i) as [->|Hne]; [|apply Hall].
    intros [= <-]. now apply (parse_walk_line_typed line).
Qed.

Lemma snmp_walk_nodup (w : world) (self : monitor) (oid : string) :
  NoDup (keys (snmp_walk w self oid)).
Proof.
  rewrite snmp_walk_unfold.
  destruct (run_snmp_command w (walk_command self oid)) as [[|c text]|];
    try constructor.
  apply fold_walk_line_typed; [constructor | intros index value H; discriminate H].
Qed.

(** X9. The mapping [snmp_walk] returns has no repeated index; every index
    is a non-empty string of decimal digits; and a value is kept as a string
    only when it does not read as an integer. *)
Theorem snmp_walk_typed (w : world) (self : monitor) (oid : string) :
  NoDup (keys (snmp_walk w self oid)) /\
  (forall index value,
      get (snmp_walk w self oid) index = Some value ->
      index <> EmptyString /\ all_digits index = true /\
      match value with
      | VInt _ => True
      | VStr text => int text = None
      end).
Proof.
  rewrite snmp_walk_unfold.
  destruct (run_snmp_command w (walk_command self oid)) as [[|c text]|];
    try (split; [constructor | intros index value H; discriminate H]).
  apply fold_walk_line_typed; [constructor | intros index value H; discriminate H].
Qed.

Lemma fold_set_entries {A V} (f : string * A -> V) (d : dict A) (acc : dict V) :
  NoDup (keys d) ->
  (forall k, In k (keys d) -> ~ In k (keys acc)) ->
  fold_left (fun acc entry => set acc (fst entry) (f entry)) d acc
  = (acc ++ map (fun entry => (fst entry, f entry)) d)%list.
Proof.
  revert acc.
  induction d as [|[k a] d IH]; intros acc Hnd Hfresh; simpl.
  - now rewrite app_nil_r.
  - inversion Hnd as [|? ? Hnotin Hrest]; subst.
    rewrite set_absent by (apply Hfresh; now left).
    rewrite IH; [now rewrite <- app_assoc | exact Hrest |].
    intros k' Hin. unfold keys. rewrite map_app, in_app_iff. simpl.
    intros [Hacc|[<-|[]]]; [|contradiction].
    apply (Hfresh k'); [now right | exact Hacc].
Qed.

Lemma keys_map_entries {A V} (f : string * A -> V) (d : dict A) :
  keys (map (fun entry => (fst entry, f entry)) d) = keys d.
Proof. unfold keys. rewrite map_map. reflexivity. Qed.

Lemma get_map_entries {A V} (f : string * A -> V) (d : dict A) k :
  get (map (fun entry => (fst entry, f entry)) d) k
  = match get d k with
    | Some a => Some (f (k, a))
    | None => None
    end.
Proof.
  induction d as [|[k' a] d IH]; simpl; [reflexivity|].
  destruct (String.eqb_spec k k') as [->|Hne]; [reflexivity | exact IH].
Qed.

Lemma get_interfaces_entries (w : world) (self : monitor) :
  get_interfaces w self
  = map (fun entry =>
           (fst entry,
            interface_of (snmp_walk w self (oids "interface_speed"))
                         (snmp_walk w self (oids "interface_admin_status"))
                         (snmp_walk w self (oids "interface_oper_status")) entry))
        (snmp_walk w self (oids "interface_desc")).
Proof.
  unfold get_interfaces. cbv zeta.
  apply (fold_set_entries
           (interface_of (snmp_walk w self (oids "interface_speed"))
                         (snmp_walk w self (oids "interface_admin_status"))
                         (snmp_walk w self (oids "interface_oper_status")))
           (snmp_walk w self (oids "interface_desc")) []).
  - apply snmp_walk_nodup.
  - intros k _ [].
Qed.

Lemma get_interface_stats_entries (w : world) (self : monitor) :
  get_interface_stats w self
  = map (fun entry =>
           (fst entry,
            stats_of (snmp_walk w self (oids "interface_in_octets"))
                     (snmp_walk w self (oids "interface_out_octets"))
                     (snmp_walk w self (oids "interface_in_packets"))
                     (snmp_walk w self (oids "interface_out_packets")) entry))
        (snmp_walk w self (oids "interface_in_octets")).
Proof.
  unfold get_interface_stats. cbv zeta.
  apply (fold_set_entries
           (stats_of (snmp_walk w self (oids "interface_in_octets"))
                     (snmp_walk w self (oids "interface_out_octets"))
                     (snmp_walk w self (oids "interface_in_packets"))
                     (snmp_walk w self (oids "interface_out_packets")))
           (snmp_walk w self (oids "interface_in_octets")) []).
  - apply snmp_walk_nodup.
  - intros k _ [].
Qed.

Lemma get_interface_stats_lookup (w : world) (self : monitor) position :
  get (get_interface_stats w self) position
  = match get (snmp_walk w self (oids "interface_in_octets")) position with
    | Some octets =>
      Some (stats_of (snmp_walk w self (oids "interface_in_octets"))
                     (snmp_walk w self (oids "interface_out_octets"))
                     (snmp_walk w self (oids "interface_in_packets"))
                     (snmp_walk w self (oids "interface_out_packets"))
                     (position, octets))
    | None => None
    end.
Proof. rewrite get_interface_stats_entries. apply get_map_entries. Qed.

(** X10. [get_interfaces] reports one interface for each index of the
    description table, in the order of that table and under that index; the
    name is the description; an index absent from the speed table gets the
    speed 0, and one absent from a status table gets the status text
    "unknown": an interface is never skipped for a missing parallel entry. *)
Theorem get_interfaces_per_description (w : world) (self : monitor) :
  keys (get_interfaces w self) = keys (snmp_walk w self (oids "interface_desc")) /\
  (forall position interface,
      get (get_interfaces w self) position = Some interface ->
      index interface = position /\
      (exists description,
          get (snmp_walk w self (oids "interface_desc")) position = Some description
          /\ name interface = str description) /\
      (get (snmp_walk w self (oids "interface_speed")) position = None ->
       speed interface = VInt 0) /\
      (get (snmp_walk w self (oids "interface_admin_status")) position = None ->
       admin_status_text interface = "unknown") /\
      (get (snmp_walk w self (oids "interface_oper_status")) position = None ->
       oper_status_text interface = "unknown")).
Proof.
  rewrite get_interfaces_entries. split; [apply keys_map_entries|].
  intros position interface. rewrite get_map_entries.
  destruct (get (snmp_walk w self (oids "interface_desc")) position) as [description|];
    [|discriminate].
  intros [= <-]. unfold interface_of, get_default. cbn [index name speed fst snd
    admin_status_text oper_status_text].
  split; [reflexivity|]. split; [now exists description|].
  split; [|split]; intros ->; reflexivity.
Qed.

(** X11. [get_interface_stats] has an entry for exactly the indices of the
    in-octets table; a counter missing from one of the three other tables is
    0 in that entry. *)
Theorem get_interface_stats_per_in_octets (w : world) (self : monitor) :
  keys (get_interface_stats w self)
  = keys (snmp_walk w self (oids "interface_in_octets")) /\
  (forall position stats,
      get (get_interface_stats w self) position = Some stats ->
      get (snmp_walk w self (oids "interface_in_octets")) position
      = Some (in_octets stats) /\
      out_octets stats
      = get_default (snmp_walk w self (oids "interface_out_octets")) position (VInt 0) /\
      in_packets stats
      = get_default (snmp_walk w self (oids "interface_in_packets")) position (VInt 0) /\
      out_packets stats
      = get_default (snmp_walk w self (oids "interface_out_packets")) position (VInt 0)).
Proof.
  rewrite get_interface_stats_entries. split; [apply keys_map_entries|].
  intros position stats. rewrite get_map_entries.
  destruct (get (snmp_walk w self (oids "interface_in_octets")) position) as [octets|] eqn:E;
    [|discriminate].
  intros [= <-]. unfold stats_of, get_default.
  cbn [in_octets out_octets in_packets out_packets fst]. rewrite E.
  repeat split.
Qed.

End Tables.

(** *** Interfaces of a probed device *)

Section ProbedInterfaces.
Import Py Env Discovery.

Lemma snmp_probe_interfaces_entries (w : world) (self : discovery) (ip : string)
      (device_info : device) :
  snmp_probe w self ip = Some device_info ->
  interfaces device_info
  = map (fun entry =>
           (fst entry,
            iface_of (SimpleSnmp.get_interface_stats w (monitor_for self ip)) entry))
        (SimpleSnmp.get_interfaces w (monitor_for self ip)).
Proof.
  unfold snmp_probe. cbv zeta.
  destruct (SimpleSnmp.snmp_get w (monitor_for self ip) "1.3.6.1.2.1.1.1.0")
    as [[|c desc]|]; cbn [truthy negb]; try discriminate.
  intros [= <-]. cbn [interfaces].
  apply (fold_set_entries
           (iface_of (SimpleSnmp.get_interface_stats w (monitor_for self ip)))
           (SimpleSnmp.get_interfaces w (monitor_for self ip)) []).
  - rewrite get_interfaces_entries, keys_map_entries. apply snmp_walk_nodup.
  - intros k _ [].
Qed.

(** X12. A probed device has one interface for each index of the
    description table, with the name and status texts [get_interfaces]
    reports. Its four counters are all 0 when the index is missing from the
    in-octets table, whatever the other counter tables hold; otherwise they
    are the values of the four tables, 0 where a table lacks the index. *)
Theorem snmp_probe_interfaces (w : world) (self : discovery) (ip : string)
        (device_info : device) :
  snmp_probe w self ip = Some device_info ->
  let monitor := monitor_for self ip in
  let table key := SimpleSnmp.snmp_walk w monitor (SimpleSnmp.oids key) in
  keys (interfaces device_info) = keys (table "interface_desc") /\
  (forall position iface,
      get (interfaces device_info) position = Some iface ->
      (exists interface,
          get (SimpleSnmp.get_interfaces w monitor) position = Some interface /\
          name iface = SimpleSnmp.name interface /\
          admin_status iface = SimpleSnmp.admin_status_text interface /\
          oper_status iface = SimpleSnmp.oper_status_text interface /\
          speed iface = SimpleSnmp.speed interface) /\
      (get (table "interface_in_octets") position = None ->
       in_octets iface = VInt 0 /\ out_octets iface = VInt 0 /\
       in_packets iface = VInt 0 /\ out_packets iface = VInt 0) /\
      (forall octets,
          get (table "interface_in_octets") position = Some octets ->
          in_octets iface = octets /\
          out_octets iface = get_default (table "interface_out_octets") position (VInt 0) /\
          in_packets iface = get_default (table "interface_in_packets") position (VInt 0) /\
          out_packets iface
          = get_default (table "interface_out_packets") position (VInt 0))).
Proof.
  intros Hprobe monitor table.
  rewrite (snmp_probe_interfaces_entries w self ip device_info Hprobe).
  fold monitor. split.
  - rewrite keys_map_entries, get_interfaces_entries. apply keys_map_entries.
  - intros position iface. rewrite get_map_entries.
    destruct (get (SimpleSnmp.get_interfaces w monitor) position) as [interface|];
      [|discriminate].
    intros [= <-]. unfold iface_of.
    cbn [name admin_status oper_status speed in_octets out_octets in_packets
         out_packets fst snd].
    split; [exists interface; repeat split|].
    rewrite get_interface_stats_lookup. unfold table.
    destruct (get (SimpleSnmp.snmp_walk w monitor (SimpleSnmp.oids "interface_in_octets"))
                  position) as [octets|] eqn:E.
    + split; [discriminate|].
      intros octets' [= <-]. unfold SimpleSnmp.stats_of, get_default.
      cbn [SimpleSnmp.in_octets SimpleSnmp.out_octets SimpleSnmp.in_packets
           SimpleSnmp.out_packets fst].
      rewrite E. repeat split.
    + split; [intros _; repeat split | discriminate].
Qed.

Lemma snmp_probe_interfaces_witness :
  exists device_info iface,
    snmp_probe partial_counters_world (sample_discovery []) "10.0.0.5" = Some device_info /\
    keys (interfaces device_info) = ["1"; "2"] /\
    get (interfaces device_info) "2" = Some iface /\
    name iface = "eth0" /\
    out_octets iface = VInt 0.
Proof.
  eexists _, _. split; [reflexivity|]. split; [reflexivity|]. split; [reflexivity|].
  split; [reflexivity|].
  exact (proj1 (proj2 (proj1 (proj2 (proj2 (snmp_probe_interfaces
                                              partial_counters_world (sample_discovery [])
                                              "10.0.0.5" _ eq_refl) "2" _ eq_refl))
                             eq_refl))).
Defined.

End ProbedInterfaces.

(** *** Uptime *)

Section Uptime.
Import Py SimpleSnmp.
Open Scope Q_scope.










End Uptime.

(** *** System information *)

Section SystemInfo.
Import Py Env SimpleSnmp.











End SystemInfo.

(** *** Rates and the length of the interval *)

Section RateScaling.
Import Py SnmpMonitor.
Open Scope Q_scope.






End RateScaling.

(** *** Subnets *)

Section Subnets.
Import Py Discovery.

Lemma split_field (field rest : string) :
  has_char "." field = false ->
  split "." (field ++ "." ++ rest) = field :: split "." rest.
Proof.
  induction field as [|c field IH]; intros Hfree.
  - reflexivity.
  - cbn [has_char] in Hfree. apply orb_false_elim in Hfree. destruct Hfree as [Hc Hrest].
    change (String c field ++ "." ++ rest) with (String c (field ++ "." ++ rest)).
    cbn [split]. rewrite Ascii.eqb_sym, Hc, (IH Hrest). reflexivity.
Qed.

Lemma first_three_fields a b c d :
  has_char "." a = false -> has_char "." b = false -> has_char "." c = false ->
  firstn 3 (split "." (dotted a b c d)) = [a; b; c].
Proof.
  intros Ha Hb Hc. unfold dotted.
  rewrite (split_field a), (split_field b), (split_field c) by assumption.
  reflexivity.
Qed.

(** X16. [same_subnet] is reflexive, symmetric and transitive on all
    strings; and two dotted addresses of four fields are in the same subnet
    exactly when their first three fields are equal, whatever the fourth. *)
Theorem same_subnet_first_three_fields :
  (forall ip, same_subnet ip ip = true) /\
  (forall ip1 ip2, same_subnet ip1 ip2 = same_subnet ip2 ip1) /\
  (forall ip1 ip2 ip3,
      same_subnet ip1 ip2 = true -> same_subnet ip2 ip3 = true ->
      same_subnet ip1 ip3 = true) /\
  (forall a b c d a' b' c' d',
      has_char "." a = false -> has_char "." b = false -> has_char "." c = false ->
      has_char "." a' = false -> has_char "." b' = false -> has_char "." c' = false ->
      (same_subnet (dotted a b c d) (dotted a' b' c' d') = true
       <-> a = a' /\ b = b' /\ c = c')).
Proof.
  unfold same_subnet. split; [|split; [|split]].
  - intros ip. now destruct (list_eq_dec string_dec _ _).
  - intros ip1 ip2.
    destruct (list_eq_dec string_dec (firstn 3 (split "." ip1)) (firstn 3 (split "." ip2)));
      destruct (list_eq_dec string_dec (firstn 3 (split "." ip2))
                            (firstn 3 (split "." ip1))); congruence.
  - intros ip1 ip2 ip3.
    destruct (list_eq_dec string_dec (firstn 3 (split "." ip1)) (firstn 3 (split "." ip2)));
      [|discriminate].
    destruct (list_eq_dec string_dec (firstn 3 (split "." ip2)) (firstn 3 (split "." ip3)));
      [|discriminate].
    destruct (list_eq_dec string_dec (firstn 3 (split "." ip1)) (firstn 3 (split "." ip3)));
      congruence.
  - intros a b c d a' b' c' d' Ha Hb Hc Ha' Hb' Hc'.
    rewrite !first_three_fields by assumption.
    destruct (list_eq_dec string_dec [a; b; c] [a'; b'; c']) as [Heq|Hne].
    + injection Heq as -> -> ->. tauto.
    + split; [discriminate | intros [-> [-> ->]]; contradiction].
Qed.

Lemma same_subnet_first_three_fields_witness :
  same_subnet (dotted "10" "0" "0" "9") (dotted "10" "0" "0" "1") = true.
Proof.
  apply (proj2 (proj2 (proj2 same_subnet_first_three_fields))); try reflexivity.
  repeat split.
Defined.

End Subnets.

(** *** Failures of the topology build *)

Section TopologyFailures.
Import Py Env Discovery.

Lemma for_each_raise {A B} (body : B -> A -> outcome B) items acc e :
  for_each body items acc = Raise e ->
  exists item acc', In item items /\ body acc' item = Raise e.
Proof.
  revert acc.
  induction items as [|item rest IH]; intros acc; simpl; [discriminate|].
  destruct (body acc item) as [acc'|e'] eqn:E.
  - intros H. apply IH in H. destruct H as [item' [acc'' [Hin Hraise]]].
    exists item', acc''. split; [now right | exact Hraise].
  - intros [= <-]. exists item, acc. split; [now left | exact E].
Qed.

Lemma is_active_raise iface e :
  is_active iface = Raise e ->
  e = TypeError /\ oper_status iface = "up" /\ exists text, in_octets iface = VStr text.
Proof.
  unfold is_active.
  destruct (String.eqb_spec (oper_status iface) "up") as [Hup|]; [|discriminate].
  destruct (in_octets iface) as [n|text]; [discriminate|].
  intros [= <-]. split; [reflexivity|]. split; [exact Hup | now exists text].
Qed.

Lemma active_interfaces_raise ifaces e :
  active_interfaces ifaces = Raise e ->
  exists iface, In iface ifaces /\ is_active iface = Raise e.
Proof.
  unfold active_interfaces. intros H. apply for_each_raise in H.
  destruct H as [iface [acc [Hin Hbody]]]. exists iface. split; [exact Hin|].
  destruct (is_active iface); cbn [bind] in Hbody; [discriminate Hbody | congruence].
Qed.

Lemma have_interconnect_raise dev1 dev2 e :
  have_interconnect dev1 dev2 = Raise e ->
  exists dev iface,
    (dev = dev1 \/ dev = dev2) /\ In iface (values (interfaces dev))
    /\ is_active iface = Raise e.
Proof.
  unfold have_interconnect.
  destruct (active_interfaces (values (interfaces dev1))) as [a1|e1] eqn:E1; cbn [bind].
  - destruct (active_interfaces (values (interfaces dev2))) as [a2|e2] eqn:E2;
      cbn [bind]; [discriminate|].
    intros [= <-]. apply active_interfaces_raise in E2. destruct E2 as [iface [Hin Hact]].
    exists dev2, iface. tauto.
  - intros [= <-]. apply active_interfaces_raise in E1. destruct E1 as [iface [Hin Hact]].
    exists dev1, iface. tauto.
Qed.

Lemma detect_links_raise (self : discovery) links e :
  detect_links self links = Raise e ->
  exists address switch iface,
    In (address, switch) (discovered_devices self) /\
    is_switch_device switch = true /\
    In iface (values (interfaces switch)) /\
    is_active iface = Raise e.
Proof.
  unfold detect_links.
  set (switch_devices := filter _ (discovered_devices self)).
  destruct (for_each _ (enumerate switch_devices) links) as [linked|e'] eqn:Eswitches;
    cbn [bind]; [discriminate|].
  intros [= <-].
  apply for_each_raise in Eswitches.
  destruct Eswitches as [[i [ip1 dev1]] [acc [Hfirst Hinner]]].
  apply for_each_raise in Hinner.
  destruct Hinner as [[j [ip2 dev2]] [acc' [Hsecond Hbody]]].
  cbn [fst snd] in Hbody.
  destruct (i <? j)%nat; [|discriminate].
  destruct (have_interconnect dev1 dev2) as [linked|e''] eqn:Elinked; cbn [bind] in Hbody;
    [discriminate|].
  injection Hbody as ->.
  apply have_interconnect_raise in Elinked.
  destruct Elinked as [dev [iface [Hdev [Hin Hact]]]].
  apply in_enumerate_item, filter_In in Hfirst.
  apply in_enumerate_item, filter_In in Hsecond.
  cbn [snd] in Hfirst, Hsecond.
  destruct Hdev as [->| ->].
  - exists ip1, dev1, iface. unfold is_switch_device. tauto.
  - exists ip2, dev2, iface. unfold is_switch_device. tauto.
Qed.

(** X17. [build_topology] can fail in one way only: a [TypeError], raised
    while comparing with 0 the in-octets counter of an interface that is up,
    on a switch of the registry, the counter being a string. The object is
    then left as it was (the stored topology is not replaced). *)
Theorem build_topology_failure (self : discovery) (e : exn) (self' : discovery) :
  build_topology self = (Raise e, self') ->
  self' = self /\ e = TypeError /\
  exists address switch iface text,
    In (address, switch) (discovered_devices self) /\
    is_switch_device switch = true /\
    In iface (values (interfaces switch)) /\
    oper_status iface = "up" /\
    in_octets iface = VStr text.
Proof.
  unfold build_topology.
  set (mininet_interfaces :=
         if (List.length (discovered_devices self) =? 1)%nat
            && has_key (discovered_devices self) "127.0.0.1"
         then match get (discovered_devices self) "127.0.0.1" with
              | Some localhost_device =>
                filter is_mininet_interface (values (interfaces localhost_device))
              | None => []
              end
         else []).
  destruct mininet_interfaces as [|port ports]; [|discriminate].
  cbn [fst snd].
  destruct (detect_links self []) as [links|e'] eqn:Edetect; [discriminate|].
  intros [= <- <-]. split; [reflexivity|].
  apply detect_links_raise in Edetect.
  destruct Edetect as [address [switch [iface [Hin [Hsw [Hif Hact]]]]]].
  apply is_active_raise in Hact. destruct Hact as [-> [Hup [text Htext]]].
  split; [reflexivity|]. now exists address, switch, iface, text.
Qed.

Lemma build_topology_failure_witness :
  exists address switch iface text,
    In (address, switch) (discovered_devices sample_broken) /\
    is_switch_device switch = true /\
    In iface (values (interfaces switch)) /\
    oper_status iface = "up" /\
    in_octets iface = VStr text.
Proof.
  exact (proj2 (proj2 (build_topology_failure sample_broken TypeError sample_broken
                                              eq_refl))).
Defined.

End TopologyFailures.

(** *** The discovery request of the web interface *)

Section DiscoveryRequest.
Import Py Env Discovery Web.

(** X18. A discovery request for a range that does not parse is answered
    like a successful discovery that found no device: the answer is the one
    [build_topology] gives for the registry as it was (success with
    [devices_found] 0 and the rebuilt topology, or the failure of the
    build); only the community of the object is replaced by the requested
    one. *)
Theorem api_discover_malformed_range
        (w : world) (discovery : discovery) (network_range : string)
        (community : option string) :
  network_range <> "127.0.0.1/32" ->
  network_hosts w network_range = None ->
  api_discover w discovery (Some network_range) community
  = match build_topology
            (with_community discovery
                            match community with Some c => c | None => "public" end) with
    | (Return topology, discovery') => (Success 0 topology, discovery')
    | (Raise e, discovery') => (Failure e, discovery')
    end.
Proof.
  intros Hnot Hbad. unfold api_discover.
  destruct (String.eqb_spec network_range "127.0.0.1/32") as [Heq|_]; [contradiction|].
  unfold discover_network_range. rewrite Hbad.
  cbn [fst snd]. reflexivity.
Qed.

Lemma api_discover_malformed_range_witness :
  exists topology discovery',
    api_discover unanswered_world sample_campus (Some "not-a-range") None
    = (Success 0 topology, discovery') /\
    List.length (nodes topology) = 4%nat.
Proof.
  rewrite (api_discover_malformed_range unanswered_world sample_campus "not-a-range" None).
  - eexists _, _. split; reflexivity.
  - discriminate.
  - reflexivity.
Defined.

End DiscoveryRequest.

(** *** Statistics of the nodes of a topology *)

Section NodeStatistics.
Import Py Env Discovery.

Lemma uint_digits (d : Decimal.uint) : all_digits (NilEmpty.string_of_uint d) = true.
Proof. induction d; simpl; try reflexivity; exact IHd. Qed.

Lemma str_of_nat_isdigit (n : nat) : isdigit (str_of_nat n) = true.
Proof.
  unfold str_of_nat, str_of_Z.
  assert (Hd : forall d, isdigit (NilZero.string_of_uint d) = true).
  { intros d. pose proof (uint_digits d) as H. destruct d; try reflexivity; exact H. }
  destruct (Z.of_nat n) eqn:E; cbn [Z.to_int NilZero.string_of_int]; try apply Hd.
  lia.
Qed.

Lemma get_device_stats_host (w : world) (self : discovery) (i : nat) :
  get_device_stats w self (host_id i) = Some (_get_virtual_host_stats w (host_id i)).
Proof.
  unfold get_device_stats, host_id.
  change ("h" ++ str_of_nat (i + 1)) with (String "h" (str_of_nat (i + 1))).
  cbn [String.prefix from_second]. rewrite str_of_nat_isdigit.
  destruct (ascii_dec "h" "h") as [_|Hne]; [|contradiction].
  now destruct (str_of_nat (i + 1)).
Qed.

(** X19. Every node of a graph [build_topology] returns is either a
    registered address or one of the ids the expansion makes up, and for
    those [get_device_stats] answers without consulting the registry: a host
    node gets the fixed statistics of a virtual host under its own id, the
    node s1 those of the virtual switch. *)
Theorem build_topology_nodes_have_statistics
        (w : world) (self : discovery) (graph : topology_graph) (self' : discovery) :
  build_topology self = (Return graph, self') ->
  forall n,
    In n (nodes graph) ->
    In (node_id n) (keys (discovered_devices self))
    \/ (node_type n = "host"
        /\ get_device_stats w self' (node_id n)
           = Some (_get_virtual_host_stats w (node_id n)))
    \/ (node_id n = "s1"
        /\ get_device_stats w self' "s1" = Some (_get_virtual_switch_stats w self')).
Proof.
  intros Hbuild n Hn. apply build_topology_cases in Hbuild.
  destruct Hbuild as [_ [[Hnodes _]|[localhost_device [port [ports Hexp]]]]].
  - left. rewrite <- node_ids_of_devices, <- Hnodes. now apply in_map.
  - destruct Hexp as [_ [_ [Hnodes _]]]. rewrite Hnodes in Hn.
    apply filter_In in Hn. destruct Hn as [Hn _].
    apply filter_In in Hn. destruct Hn as [Hn _].
    apply in_app_or in Hn. destruct Hn as [Hn|Hn]; [apply in_app_or in Hn; destruct Hn as [Hn|Hn]|].
    + left. rewrite <- node_ids_of_devices. now apply in_map.
    + destruct Hn as [<-|[]]. right. right. split; reflexivity.
    + apply in_map_iff in Hn. destruct Hn as [[i iface] [<- _]].
      right. left. cbn [fst snd host_node node_type node_id].
      split; [reflexivity | apply get_device_stats_host].
Qed.

Lemma build_topology_nodes_have_statistics_witness :
  get_device_stats SimpleSnmp.silent_world
                   (snd (build_topology
                           (sample_discovery [("127.0.0.1", sample_device "127.0.0.1")])))
                   "h2"
  = Some (_get_virtual_host_stats SimpleSnmp.silent_world "h2").
Proof.
  destruct (build_topology_nodes_have_statistics
              SimpleSnmp.silent_world
              (sample_discovery [("127.0.0.1", sample_device "127.0.0.1")]) _ _ eq_refl
              (host_node 1 (sample_port "s1-eth2" "down" (VInt 0))))
    as [Hreg|[[_ Hhost]|[Hs1 _]]].
  - simpl. tauto.
  - simpl in Hreg. destruct Hreg as [Hreg|[]]. discriminate Hreg.
  - exact Hhost.
  - discriminate Hs1.
Defined.




End NodeStatistics.

(** *** From the local probe to the topology *)

Section LocalTopology.
Import Py Env Discovery.

(** X21. On an empty registry, a successful [discover_localhost] followed
    by [build_topology] gives, when the local machine has no interface named
    like a switch port, the graph of one node and no link; the node carries
    the address 127.0.0.1, the name of the device and, as its type, the
    classification of the description the device gave. *)
Theorem discover_localhost_then_build
        (w : world) (self : discovery) (device_info : device) :
  discovered_devices self = [] ->
  snmp_probe w self "127.0.0.1" = Some device_info ->
  filter is_mininet_interface (values (interfaces device_info)) = [] ->
  fst (discover_localhost w self) = [("127.0.0.1", device_info)] /\
  fst (build_topology (snd (discover_localhost w self)))
  = Return {| nodes := [node_of_device "127.0.0.1" device_info]; links := [] |} /\
  node_type (node_of_device "127.0.0.1" device_info)
  = identify_device_type (Some (system_description device_info)) /\
  node_id (node_of_device "127.0.0.1" device_info) = "127.0.0.1".
Proof.
  intros Hempty Hprobe Hplain.
  unfold discover_localhost. rewrite Hprobe, Hempty. cbn [fst snd set].
  split; [reflexivity|]. split; [|split; [|reflexivity]].
  - rewrite (build_topology_plain _ "127.0.0.1" device_info);
      [reflexivity | reflexivity | exact Hplain].
  - cbn [node_of_device node_type].
    unfold snmp_probe in Hprobe.
    destruct (SimpleSnmp.snmp_get w (monitor_for self "127.0.0.1") "1.3.6.1.2.1.1.1.0")
      as [[|c desc]|]; cbn [truthy negb] in Hprobe; try discriminate.
    now injection Hprobe as <-.
Qed.

Lemma discover_localhost_then_build_witness :
  exists device_info,
    fst (discover_localhost local_world (sample_discovery []))
    = [("127.0.0.1", device_info)] /\
    node_type (node_of_device "127.0.0.1" device_info) = "host".
Proof.
  destruct (snmp_probe local_world (sample_discovery []) "127.0.0.1")
    as [device_info|] eqn:E; [|discriminate E].
  destruct (discover_localhost_then_build local_world (sample_discovery []) device_info)
    as [Hfound [_ [Htype _]]].
  - reflexivity.
  - exact E.
  - injection E as <-. reflexivity.
  - exists device_info. split; [exact Hfound|].
    rewrite Htype. injection E as <-. reflexivity.
Defined.

End LocalTopology.
